(** * Permission, pagination, CSRF, session and comment core of the forum

    A shallow embedding of the Python services under [app/services]
    ([utils.py], [board.py], [auth.py], [comment.py]) together with the
    properties their specification states about them.

    Python dictionaries are finite maps from strings to dynamically typed
    values, [Optional[...]] is [option], Python integers are [Z], and code
    that can raise returns an [outcome]. *)

From Stdlib Require Import ZArith Lia Sorted.
From stdpp Require Import base option list gmap strings fin_maps.

(** ** Python values *)

Module Py.

(** The values stored in the rows the services handle: [None], booleans,
    integers and strings. *)
Inductive pyval : Type :=
  | PyNone
  | PyBool (b : bool)
  | PyInt (z : Z)
  | PyStr (s : string).

#[export] Instance pyval_eq_dec : EqDecision pyval.
Proof. solve_decision. Defined.

(** [Dict[str, Any]]. *)
Abbreviation dict := (gmap string pyval).

(** Truth value testing: [bool(v)]. *)
Definition truthy (v : pyval) : bool :=
  match v with
  | PyNone => false
  | PyBool b => b
  | PyInt z => negb (z =? 0)%Z
  | PyStr s => negb (String.eqb s "")
  end.

(** [bool(d)] for a dictionary: empty dictionaries are falsy. *)
Definition dict_truthy (d : dict) : bool := bool_decide (d ≠ ∅).

(** [bool(o)] for an [Optional[Dict]]: [None] and [{}] are falsy. *)
Definition opt_dict_truthy (o : option dict) : bool :=
  match o with
  | None => false
  | Some d => dict_truthy d
  end.

(** [not s] for an [Optional[str]]: [None] and the empty string are
    falsy. *)
Definition opt_str_falsy (s : option string) : bool :=
  match s with
  | None => true
  | Some t => String.eqb t ""
  end.

(** [d.get(key, dflt)]. *)
Definition get (d : dict) (key : string) (dflt : pyval) : pyval :=
  default dflt (d !! key).

(** [v == "literal"]: only a string compares equal to a string. *)
Definition eq_str (v : pyval) (lit : string) : bool :=
  match v with
  | PyStr s => String.eqb s lit
  | _ => false
  end.

(** [v is not None]. *)
Definition is_not_none (v : pyval) : bool :=
  match v with
  | PyNone => false
  | _ => true
  end.

(** [a == b] on values: [None] equals only [None], a string only an equal
    string, and booleans and integers compare by number ([True == 1]). *)
Definition py_eq (a b : pyval) : bool :=
  match a, b with
  | PyNone, PyNone => true
  | PyStr s, PyStr t => String.eqb s t
  | PyBool x, PyBool y => Bool.eqb x y
  | PyInt x, PyInt y => (x =? y)%Z
  | PyBool x, PyInt y => ((if x then 1 else 0) =? y)%Z
  | PyInt x, PyBool y => (x =? (if y then 1 else 0))%Z
  | _, _ => false
  end.

End Py.

Import Py.

(** ** Board permissions ([app/services/board.py]) *)

Module BoardService.

(** [check_read_permission(board, user)].  The last branch of the [admin]
    policy returns the value of [user.get("is_admin", False)] itself, as
    Python's [and] does. *)
Definition check_read_permission (board : dict) (user : option dict) : pyval :=
  let can_read := get board "can_read" (PyStr "all") in
  if eq_str can_read "all" then PyBool true
  else if eq_str can_read "member" then PyBool (bool_decide (is_Some user))
  else if eq_str can_read "admin" then
    match user with
    | None => PyBool false
    | Some u => get u "is_admin" (PyBool false)
    end
  else PyBool false.

(** [check_write_permission(board, user)]. *)
Definition check_write_permission (board : dict) (user : option dict) : pyval :=
  match user with
  | Some u =>
      if negb (dict_truthy u) then PyBool false
      else
        let can_write := get board "can_write" (PyStr "member") in
        if eq_str can_write "all" then PyBool true
        else if eq_str can_write "member" then PyBool true
        else if eq_str can_write "admin" then get u "is_admin" (PyBool false)
        else PyBool false
  | None => PyBool false
  end.

(** The identity's admin flag, read the way both checks read it. *)
Definition admin_flag (u : dict) : pyval := get u "is_admin" (PyBool false).

End BoardService.

(** ** Exceptions and results *)

Module Exn.

(** The exceptions the modelled code can raise or catch.  [JWTError] is the
    base class of the token library; [ExpiredSignatureError] and
    [JWTClaimsError] derive from it.  [APIError] is what the store client
    raises when a [single()] query does not match exactly one row, and
    [HTTPException] carries a status code and a detail message.
    [UpstreamError] stands for any other failure of the external store. *)
Inductive exn : Type :=
  | TypeError
  | ZeroDivisionError
  | KeyError
  | JWTError
  | ExpiredSignatureError
  | JWTClaimsError
  | APIError
  | UpstreamError
  | HTTPException (status_code : Z) (detail : string).

(** [isinstance(e, JWTError)]. *)
Definition is_JWTError (e : exn) : bool :=
  match e with
  | JWTError | ExpiredSignatureError | JWTClaimsError => true
  | _ => false
  end.

(** [isinstance(e, HTTPException)]. *)
Definition is_HTTPException (e : exn) : bool :=
  match e with
  | HTTPException _ _ => true
  | _ => false
  end.

(** The result of running code that may raise. *)
Inductive outcome (A : Type) : Type :=
  | Returned (a : A)
  | Raised (e : exn).
Arguments Returned {A} a.
Arguments Raised {A} e.

End Exn.

Import Exn.

(** ** Utilities ([app/services/utils.py]) *)

Module utils.

(** *** Sanitization *)

Section Sanitize.
(** [bleach.clean(content, tags=ALLOWED_TAGS, attributes=ALLOWED_ATTRIBUTES,
    strip=True)] and [bleach.clean(text, tags=[], strip=True)]: the
    third-party cleaner under the two policies. *)
Variable bleach_clean_html : string → string.
Variable bleach_clean_text : string → string.

Definition sanitize_html (content : option string) : option string :=
  if opt_str_falsy content then content
  else bleach_clean_html <$> content.

Definition sanitize_text (text : option string) : option string :=
  if opt_str_falsy text then text
  else bleach_clean_text <$> text.
End Sanitize.

(** *** CSRF protection *)

(** A [str] is represented by its UTF-8 encoding; it is ASCII-only exactly
    when every byte of the encoding is below 128. *)
Fixpoint is_ascii (s : string) : bool :=
  match s with
  | EmptyString => true
  | String c rest => Nat.ltb (Ascii.nat_of_ascii c) 128 && is_ascii rest
  end.

(** [secrets.compare_digest(a, b)] on two [str] arguments: it raises
    [TypeError] unless both are ASCII-only, and otherwise tells whether they
    are equal. *)
Definition compare_digest (a b : string) : outcome bool :=
  if is_ascii a && is_ascii b then Returned (String.eqb a b)
  else Raised TypeError.

Definition verify_csrf_token (cookie_token form_token : option string)
  : outcome bool :=
  if opt_str_falsy cookie_token || opt_str_falsy form_token
  then Returned false
  else compare_digest (default "" cookie_token) (default "" form_token).

(** *** Pagination *)

Record pagination : Type := {
  total : Z;
  page : Z;
  per_page : Z;
  total_pages : Z;
  has_prev : bool;
  has_next : bool;
  page_range : list Z
}.

(** [a // b] on integers. *)
Definition floordiv (a b : Z) : outcome Z :=
  if (b =? 0)%Z then Raised ZeroDivisionError else Returned (a / b)%Z.

(** [list(range(a, b))]. *)
Definition range (a b : Z) : list Z := seqZ a (b - a).

Definition calculate_pagination (total page per_page : Z) : outcome pagination :=
  match (if (total >? 0)%Z then floordiv (total + per_page - 1) per_page
         else Returned 0%Z) with
  | Raised e => Raised e
  | Returned total_pages =>
      let has_prev := (page >? 1)%Z in
      let has_next := (page <? total_pages)%Z in
      let start_page := Z.max 1 (page - 2) in
      let end_page := Z.min total_pages (start_page + 4) in
      let start_page :=
        if (end_page - start_page <? 4)%Z then Z.max 1 (end_page - 4)
        else start_page in
      Returned {|
        total := total;
        page := page;
        per_page := per_page;
        total_pages := total_pages;
        has_prev := has_prev;
        has_next := has_next;
        page_range :=
          if (total_pages >? 0)%Z then range start_page (end_page + 1) else []
      |}
  end.

End utils.

(** ** The external store ([app/services/database.py]) *)

Module database.

(** The tables the services query, each a list of rows, and whether the
    hosted store currently answers at all. *)
Record db : Type := {
  users : list dict;
  posts : list dict;
  comments : list dict;
  online : bool
}.

Inductive table : Type := Users | Posts | Comments.

Definition rows (t : table) (s : db) : list dict :=
  match t with
  | Users => users s
  | Posts => posts s
  | Comments => comments s
  end.

Definition set_rows (t : table) (l : list dict) (s : db) : db :=
  match t with
  | Users => {| users := l; posts := posts s; comments := comments s; online := online s |}
  | Posts => {| users := users s; posts := l; comments := comments s; online := online s |}
  | Comments => {| users := users s; posts := posts s; comments := l; online := online s |}
  end.

(** Code that talks to the store: it reads and updates the store and may
    raise. *)
Definition M (A : Type) : Type := db → outcome A * db.

#[export] Instance M_ret : MRet M := λ A a s, (Returned a, s).

#[export] Instance M_bind : MBind M := λ A B f m s,
  match m s with
  | (Returned a, s') => f a s'
  | (Raised e, s') => (Raised e, s')
  end.

(** [raise e]. *)
Definition raise {A} (e : exn) : M A := λ s, (Raised e, s).

(** Run a computation that does not touch the store. *)
Definition lift {A} (o : outcome A) : M A := λ s, (o, s).

(** [try: body  except Exception as e: handler(e)]. *)
Definition try_except {A} (body : M A) (handler : exn → M A) : M A := λ s,
  match body s with
  | (Returned a, s') => (Returned a, s')
  | (Raised e, s') => handler e s'
  end.

(** A chain of [.eq(column, value)] filters. *)
Definition matches (conds : list (string * pyval)) (r : dict) : bool :=
  forallb (λ c, bool_decide (r !! c.1 = Some c.2)) conds.

(** [.select("*")] keeps the row, [.select("c1, ...")] projects it. *)
Definition project (cols : option (list string)) (r : dict) : dict :=
  match cols with
  | None => r
  | Some cs => filter (λ kv, kv.1 ∈ cs) r
  end.

(** [supabase.table(t).select(cols).eq(...)....single().execute().data]:
    the one matching row; the client raises unless exactly one row
    matches, and any query fails while the store is unreachable. *)
Definition select_single (t : table) (cols : option (list string))
    (conds : list (string * pyval)) : M dict := λ s,
  if online s then
    match List.filter (matches conds) (rows t s) with
    | [r] => (Returned (project cols r), s)
    | _ => (Raised APIError, s)
    end
  else (Raised UpstreamError, s).

(** [supabase.table(t).update(changes).eq(...).execute()]: every matching
    row takes the new values, the other rows stay; the updated rows are
    the response data. *)
Definition update (t : table) (changes : dict)
    (conds : list (string * pyval)) : M (list dict) := λ s,
  if online s then
    (Returned ((λ r, changes ∪ r) <$> List.filter (matches conds) (rows t s)),
     set_rows t ((λ r, if matches conds r then changes ∪ r else r) <$> rows t s) s)
  else (Raised UpstreamError, s).

Section Insert.
(** The identifier the store assigns to a new row. *)
Variable gen_random_uuid : db → string.

(** [supabase.table(t).insert(row).execute().data[0]]. *)
Definition insert (t : table) (row : dict) : M dict := λ s,
  if online s then
    let stored := <["id" := PyStr (gen_random_uuid s)]> row in
    (Returned stored, set_rows t (rows t s ++ [stored]) s)
  else (Raised UpstreamError, s).
End Insert.

Section Select.
(** The order in which the store returns rows under [.order(column)]. *)
Variable order_by : string → list dict → list dict.

(** [supabase.table(t).select("*").eq(...)....order(column).execute().data]. *)
Definition select_ordered (t : table) (conds : list (string * pyval))
    (column : string) : M (list dict) := λ s,
  if online s
  then (Returned (order_by column (List.filter (matches conds) (rows t s))), s)
  else (Raised UpstreamError, s).
End Select.

(** [supabase.table(t).select("*").in_(column, values).execute().data]: the
    rows whose [column] holds one of the values. *)
Definition select_in (t : table) (column : string) (values : list pyval)
    : M (list dict) := λ s,
  if online s
  then (Returned
          (List.filter
             (λ r, match r !! column with
                   | Some v => bool_decide (v ∈ values)
                   | None => false
                   end)
             (rows t s)), s)
  else (Raised UpstreamError, s).

End database.

Import database.

(** ** Session identity ([app/services/auth.py]) *)

Module AuthService.

Record Request : Type := { cookies : gmap string string }.

Section Resolver.
(** [jwt.decode(token, JWT_SECRET, algorithms=[ALGORITHM],
    audience="authenticated")]: the claims of a token that verifies, or the
    exception the token library raises. *)
Variable jwt_decode : string → outcome dict.

Definition get_current_user (request : Request) : M (option dict) :=
  let token := cookies request !! "access_token" in
  if opt_str_falsy token then mret None
  else
    try_except
      (payload ← lift (jwt_decode (default "" token));
       let user_id := get payload "sub" PyNone in
       if negb (truthy user_id) then mret None
       else
         user_response_data ← select_single Users None [("id", user_id)];
         if negb (dict_truthy user_response_data) then mret None
         else mret (Some user_response_data))
      (λ e, if is_JWTError e then mret None else mret None).

Definition require_auth (request : Request) : M dict :=
  user ← get_current_user request;
  if negb (opt_dict_truthy user)
  then raise (HTTPException 401 "Not authenticated")
  else mret (default ∅ user).

Definition require_admin (request : Request) : M dict :=
  user ← require_auth request;
  if negb (truthy (get user "is_admin" PyNone))
  then raise (HTTPException 403 "Admin access required")
  else mret user.
End Resolver.

Definition get_user_by_id (user_id : string) : M (option dict) :=
  try_except
    (response_data ← select_single Users None [("id", PyStr user_id)];
     mret (Some response_data))
    (λ e, mret None).

End AuthService.

(** ** Comments ([app/services/comment.py]) *)

Module CommentService.

(** The dictionary [create_comment] returns: the stored row extended with
    the [author] dictionary and the empty [replies] list. *)
Record comment_view : Type := {
  comment : dict;
  author : dict;
  replies : list dict
}.

(** [d[key]]. *)
Definition subscript (d : dict) (key : string) : M pyval :=
  match d !! key with
  | Some v => mret v
  | None => raise KeyError
  end.

Definition opt_str_to_py (s : option string) : pyval :=
  match s with
  | None => PyNone
  | Some t => PyStr t
  end.

Section Create.
Variable bleach_clean_text : string → string.
Variable gen_random_uuid : db → string.

(** [now] is the reading of [datetime.now(timezone.utc).isoformat()]. *)
Definition create_comment (post_id : string) (user : dict) (content : string)
    (parent_id : option string) (now : string) : M comment_view :=
  try_except
    (post_response_data ←
       select_single Posts (Some ["id"])
         [("id", PyStr post_id); ("is_active", PyBool true)];
     (if negb (dict_truthy post_response_data)
      then raise (HTTPException 404 "Post not found")
      else mret ());;
     (if negb (opt_str_falsy parent_id) then
        parent ←
          select_single Comments None
            [("id", opt_str_to_py parent_id); ("is_active", PyBool true)];
        (if negb (dict_truthy parent)
         then raise (HTTPException 404 "Parent comment not found or deleted")
         else mret ());;
        if is_not_none (get parent "parent_id" PyNone)
        then raise (HTTPException 400 "Cannot reply to a reply (max 2 levels)")
        else mret ()
      else mret ());;
     let sanitized_content :=
       utils.sanitize_text bleach_clean_text (Some content) in
     user_id ← subscript user "id";
     let comment_data : dict :=
       <["post_id" := PyStr post_id]>
       (<["user_id" := user_id]>
       (<["parent_id" := opt_str_to_py parent_id]>
       (<["content" := opt_str_to_py sanitized_content]>
       (<["is_active" := PyBool true]>
       (<["created_at" := PyStr now]>
       (<["updated_at" := PyStr now]> ∅)))))) in
     stored ← insert gen_random_uuid Comments comment_data;
     author_id ← subscript user "id";
     mret {|
       comment := stored;
       author :=
         <["id" := author_id]>
         (<["username" := get user "username" (PyStr "Unknown")]>
         (<["email" := get user "email" (PyStr "")]> ∅));
       replies := []
     |})
    (λ e, if is_HTTPException e then raise e
          else raise (HTTPException 500 "Failed to create comment")).
End Create.

(** [now] is the reading of [datetime.now(timezone.utc).isoformat()]. *)
Definition delete_comment (comment_id : string) (user : dict) (now : string)
    : M bool :=
  try_except
    (comment_response_data ←
       select_single Comments None
         [("id", PyStr comment_id); ("is_active", PyBool true)];
     (if negb (dict_truthy comment_response_data)
      then raise (HTTPException 404 "Comment not found")
      else mret ());;
     owner ← subscript comment_response_data "user_id";
     user_id ← subscript user "id";
     (if negb (py_eq owner user_id)
         && negb (truthy (get user "is_admin" (PyBool false)))
      then raise (HTTPException 403 "No permission to delete this comment")
      else mret ());;
     update Comments
       (<["is_active" := PyBool false]> (<["updated_at" := PyStr now]> ∅))
       [("id", PyStr comment_id)];;
     mret true)
    (λ e, if is_HTTPException e then raise e
          else raise (HTTPException 500 "Failed to delete comment")).

(** *** The comment tree of a post *)

(** [{r[key]: r for r in l}.get(k)], as the position in [l] of the row
    found: the last row whose [key] value equals [k], counting from [i]. *)
Fixpoint last_index_from (key : string) (k : pyval) (l : list dict) (i : nat)
    : option nat :=
  match l with
  | [] => None
  | r :: rest =>
      match last_index_from key k rest (S i) with
      | Some j => Some j
      | None =>
          match r !! key with
          | Some v => if py_eq v k then Some i else None
          | None => None
          end
      end
  end.

(** [users_dict.get(uid, {"username": "Unknown"})]. *)
Definition author_of (users : list dict) (uid : pyval) : dict :=
  match last_index_from "id" uid users 0 with
  | Some j => default ∅ (users !! j)
  | None => <["username" := PyStr "Unknown"]> ∅
  end.

(** The lists the second loop fills: [root_comments], and the [replies]
    list of each fetched comment; comments are named by their position in
    the fetched list. *)
Record placement : Type := {
  placed_roots : list nat;
  placed_replies : list (list nat)
}.

(** The loop [for comment in comments], from the comment at position [i]
    on; [fetched] is the whole list, which [comments_dict] indexes. *)
Fixpoint nest (fetched cs : list dict) (i : nat) (acc : placement)
    : outcome placement :=
  match cs with
  | [] => Returned acc
  | c :: rest =>
      match c !! "parent_id" with
      | None => Raised KeyError
      | Some parent_id =>
          if negb (is_not_none parent_id) then
            nest fetched rest (S i)
              {| placed_roots := placed_roots acc ++ [i];
                 placed_replies := placed_replies acc |}
          else
            match last_index_from "id" parent_id fetched 0 with
            | Some j =>
                nest fetched rest (S i)
                  {| placed_roots := placed_roots acc;
                     placed_replies :=
                       alter (λ l, l ++ [i]) j (placed_replies acc) |}
            | None => nest fetched rest (S i) acc
            end
      end
  end.

(** A fetched comment with the two keys the service adds to it; [replies]
    holds positions in the fetched list, since the reply objects are shared
    with that list. *)
Record node : Type := {
  node_row : dict;
  node_author : dict;
  node_replies : list nat
}.

(** What [get_post_comments] returns: the fetched comments as decorated,
    and the positions of the ones in [root_comments]. *)
Record comment_tree : Type := {
  nodes : list node;
  roots : list nat
}.

Section Listing.
Variable order_by : string → list dict → list dict.

Definition get_post_comments (post_id : string) : M comment_tree :=
  try_except
    (post_response_data ←
       select_single Posts (Some ["id"])
         [("id", PyStr post_id); ("is_active", PyBool true)];
     (if negb (dict_truthy post_response_data)
      then raise (HTTPException 404 "Post not found")
      else mret ());;
     fetched ←
       select_ordered order_by Comments
         [("post_id", PyStr post_id); ("is_active", PyBool true)] "created_at";
     authors ←
       (if bool_decide (fetched ≠ []) then
          user_ids ← mapM (λ c, subscript c "user_id") fetched;
          users_response_data ← select_in Users "id" user_ids;
          mret (author_of users_response_data <$> user_ids)
        else mret []);
     mapM (λ c, subscript c "id") fetched;;
     placed ←
       lift (nest fetched fetched 0
               {| placed_roots := [];
                  placed_replies := replicate (length fetched) [] |});
     mret {|
       nodes :=
         imap (λ i c, {| node_row := c;
                         node_author := default ∅ (authors !! i);
                         node_replies :=
                           default [] (placed_replies placed !! i) |})
           fetched;
       roots := placed_roots placed
     |})
    (λ e, if is_HTTPException e then raise e
          else raise (HTTPException 500 "Failed to fetch comments")).
End Listing.

End CommentService.

(** ** Posts ([app/services/post.py]) *)

Module PostService.

(** [now] is the reading of [datetime.now(timezone.utc).isoformat()]. *)
Definition delete_post (post_id : string) (user : dict) (now : string)
    : M bool :=
  try_except
    (post_response_data ←
       select_single Posts None
         [("id", PyStr post_id); ("is_active", PyBool true)];
     (if negb (dict_truthy post_response_data)
      then raise (HTTPException 404 "Post not found")
      else mret ());;
     owner ← CommentService.subscript post_response_data "user_id";
     user_id ← CommentService.subscript user "id";
     (if negb (py_eq owner user_id)
         && negb (truthy (get user "is_admin" (PyBool false)))
      then raise (HTTPException 403 "No permission to delete this post")
      else mret ());;
     update Posts
       (<["is_active" := PyBool false]> (<["updated_at" := PyStr now]> ∅))
       [("id", PyStr post_id)];;
     mret true)
    (λ e, if is_HTTPException e then raise e
          else raise (HTTPException 500 "Failed to delete post")).

End PostService.

(** ** Board listing ([app/routers/boards.py]) *)

Module boards.

(** [[b for b in boards if BoardService.check_read_permission(b, user)]],
    the filter of [home] and [list_boards]. *)
Definition visible_boards (boards : list dict) (user : option dict) : list dict :=
  List.filter (λ b, truthy (BoardService.check_read_permission b user)) boards.

End boards.

(** ** Notions used in the statements *)

Section Derived.
Local Open Scope Z_scope.

(** The first and last page of the window, as [calculate_pagination]
    computes them from the page count and the requested page. *)
Definition window_end (tp page : Z) : Z :=
  Z.min tp (Z.max 1 (page - 2) + 4).

Definition window_start (tp page : Z) : Z :=
  if window_end tp page - Z.max 1 (page - 2) <? 4
  then Z.max 1 (window_end tp page - 4)
  else Z.max 1 (page - 2).

(** A token value that is absent or, if present, ASCII-only. *)
Definition ascii_token (t : option string) : Prop :=
  ∀ x, t = Some x → utils.is_ascii x = true.

(** The identity [get_current_user] resolves, as a function of the cookie,
    the token library's verdict and the store. *)
Definition resolved_identity (jwt_decode : string → outcome dict)
    (request : AuthService.Request) (s : db) : option dict :=
  match AuthService.cookies request !! "access_token" with
  | None => None
  | Some tok =>
      if String.eqb tok "" then None
      else
        match jwt_decode tok with
        | Raised _ => None
        | Returned payload =>
            let user_id := get payload "sub" PyNone in
            if truthy user_id then
              if online s then
                match List.filter (matches [("id", user_id)]) (users s) with
                | [r] => if dict_truthy r then Some r else None
                | _ => None
                end
              else None
            else None
        end
  end.

(** The rows of a table that carry a given id. *)
Definition rows_with_id (id : string) (l : list dict) : list dict :=
  List.filter (λ r, bool_decide (r !! "id" = Some (PyStr id))) l.

Definition is_active (r : dict) : bool :=
  bool_decide (r !! "is_active" = Some (PyBool true)).

(** Replies are only attached to top-level comments: every comment that
    names a parent finds a comment with that id whose own parent reference
    is null. *)
Definition two_levels (cs : list dict) : Prop :=
  ∀ c pid, In c cs → c !! "parent_id" = Some (PyStr pid) →
    ∃ p, In p cs ∧ p !! "id" = Some (PyStr pid) ∧
         is_not_none (get p "parent_id" PyNone) = false.

(** What a soft delete of the rows with id [id] makes of a row [r]: a row
    [r'] that is [r] itself when [r] has another id, and otherwise [r] with
    [is_active] turned off and nothing but [is_active] and [updated_at]
    changed. *)
Definition soft_deleted (id : string) (r r' : dict) : Prop :=
  (r !! "id" ≠ Some (PyStr id) → r' = r) ∧
  (r !! "id" = Some (PyStr id) →
     r' !! "is_active" = Some (PyBool false) ∧
     ∀ k, k ≠ "is_active" → k ≠ "updated_at" → r' !! k = r !! k).

(** The checks a new comment has to pass before [create_comment] stores
    it: the store answers, exactly one active post has the id, a non-empty
    [parent_id] names exactly one active comment whose own parent reference
    is null, and the caller's record carries an [id]. *)
Definition comment_accepted (s : db) (post_id : string) (user : dict)
    (parent_id : option string) : bool :=
  online s &&
  match List.filter (matches [("id", PyStr post_id); ("is_active", PyBool true)])
          (posts s) with
  | [p] => dict_truthy (project (Some ["id"]) p)
  | _ => false
  end &&
  (opt_str_falsy parent_id ||
   match List.filter
           (matches [("id", CommentService.opt_str_to_py parent_id);
                     ("is_active", PyBool true)])
           (comments s) with
   | [c] => dict_truthy c && negb (is_not_none (get c "parent_id" PyNone))
   | _ => false
   end) &&
  bool_decide (is_Some (user !! "id")).

(** Whether [user] may delete the row with id [id] of a table: exactly one
    active row has the id, and the caller is its author or an admin. *)
Definition may_delete (l : list dict) (id : string) (user : dict) : bool :=
  match List.filter (matches [("id", PyStr id); ("is_active", PyBool true)]) l with
  | [r] =>
      dict_truthy r &&
      match r !! "user_id", user !! "id" with
      | Some owner, Some uid =>
          py_eq owner uid || truthy (get user "is_admin" (PyBool false))
      | _, _ => false
      end
  | _ => false
  end.

(** The rows of a table after the soft delete of the rows with id [id]. *)
Definition after_soft_delete (id now : string) (l : list dict) : list dict :=
  (λ r, if matches [("id", PyStr id)] r
        then <["is_active" := PyBool false]> (<["updated_at" := PyStr now]> ∅) ∪ r
        else r) <$> l.

(** A fetched comment is listed at top level when its parent reference
    is [None], and under the fetched comment at position [j] when its parent
    reference is the id that [comments_dict] maps to that comment. *)
Definition is_root (c : dict) : bool :=
  bool_decide (c !! "parent_id" = Some PyNone).

Definition names_parent (fetched : list dict) (c : dict) : option nat :=
  match c !! "parent_id" with
  | Some pid =>
      if is_not_none pid
      then CommentService.last_index_from "id" pid fetched 0
      else None
  | None => None
  end.

End Derived.

(** ** Sample data *)

(** Boards and identities. *)
Definition board_admin_only : dict :=
  <["slug" := PyStr "staff"]>
  (<["can_read" := PyStr "admin"]> (<["can_write" := PyStr "admin"]> ∅)).

Definition board_without_policies : dict := <["slug" := PyStr "general"]> ∅.

Definition sample_admin : dict :=
  <["id" := PyStr "u-1"]> (<["is_admin" := PyBool true]> ∅).

Definition sample_user : dict :=
  <["id" := PyStr "u-2"]> (<["is_admin" := PyBool false]> ∅).


(** A token library that accepts one token, for the subject [u-1], and
    rejects every other one. *)
Definition jwt_sample (tok : string) : outcome dict :=
  if String.eqb tok "valid" then Returned (<["sub" := PyStr "u-1"]> ∅)
  else if String.eqb tok "expired" then Raised ExpiredSignatureError
  else Raised JWTError.

Definition request_with (tok : string) : AuthService.Request :=
  {| AuthService.cookies := <["access_token" := tok]> ∅ |}.

(** A store with one active post, a root comment and a reply to it. *)
Definition sample_post : dict :=
  <["id" := PyStr "p-1"]> (<["is_active" := PyBool true]> ∅).

Definition root_comment : dict :=
  <["id" := PyStr "c-1"]> (<["post_id" := PyStr "p-1"]>
  (<["parent_id" := PyNone]> (<["is_active" := PyBool true]> ∅))).

Definition reply_comment : dict :=
  <["id" := PyStr "c-2"]> (<["post_id" := PyStr "p-1"]>
  (<["parent_id" := PyStr "c-1"]> (<["is_active" := PyBool true]> ∅))).

Definition sample_store (up : bool) : db :=
  {| users := [sample_admin; sample_user];
     posts := [sample_post];
     comments := [root_comment; reply_comment];
     online := up |}.

(** Stand-ins for the third-party text cleaner and for the store's
    identifier generator, used to run [create_comment] on the sample store. *)
Definition clean_sample (t : string) : string := t.

Definition uuid_sample (s : db) : string := "c-3".

(** The store's ordering taken to be the order of the table, and the
    author and the deleter used on the sample store. *)
Definition order_sample (column : string) (l : list dict) : list dict := l.

Definition sample_author : dict :=
  <["id" := PyStr "u-2"]> (<["username" := PyStr "bo"]> ∅).

Definition owned_comment : dict :=
  <["id" := PyStr "c-9"]> (<["post_id" := PyStr "p-1"]>
  (<["user_id" := PyStr "u-2"]>
  (<["parent_id" := PyNone]> (<["is_active" := PyBool true]> ∅)))).

Definition owned_post : dict :=
  <["id" := PyStr "p-9"]> (<["user_id" := PyStr "u-2"]>
  (<["is_active" := PyBool true]> ∅)).

Definition owned_store : db :=
  {| users := [sample_admin; sample_user];
     posts := [sample_post; owned_post];
     comments := [root_comment; reply_comment; owned_comment];
     online := true |}.

(** A post with a top-level comment, a reply to it, and a reply whose
    parent is not among the active comments. *)
Definition thread_comment (id user parent : string) (top : bool) : dict :=
  <["id" := PyStr id]> (<["post_id" := PyStr "p-1"]>
  (<["user_id" := PyStr user]>
  (<["parent_id" := if top then PyNone else PyStr parent]>
  (<["is_active" := PyBool true]> ∅)))).

Definition thread_store : db :=
  {| users := [sample_admin; sample_user];
     posts := [sample_post];
     comments := [thread_comment "t-1" "u-1" "" true;
                  thread_comment "t-2" "u-2" "t-1" false;
                  thread_comment "t-3" "u-2" "t-0" false];
     online := true |}.

(** * Properties *)

(** ** Python values *)

Section PyFacts.

Lemma eq_str_true v lit : eq_str v lit = true ↔ v = PyStr lit.
Proof.
  destruct v as [| b | z | s]; simpl; try (split; [discriminate | congruence]).
  rewrite String.eqb_eq. split; congruence.
Qed.

Lemma eq_str_false v lit : eq_str v lit = false ↔ v ≠ PyStr lit.
Proof.
  rewrite <- eq_str_true. destruct (eq_str v lit); split; congruence.
Qed.

Lemma dict_truthy_true (d : dict) : dict_truthy d = true ↔ d ≠ ∅.
Proof. unfold dict_truthy. by rewrite bool_decide_eq_true. Qed.

Lemma dict_truthy_lookup (d : dict) k v : d !! k = Some v → dict_truthy d = true.
Proof.
  intros Hk. apply dict_truthy_true. intros ->.
  by rewrite lookup_empty in Hk.
Qed.

Lemma get_present (d : dict) k v dflt : d !! k = Some v → get d k dflt = v.
Proof. unfold get. by intros ->. Qed.

Lemma get_missing (d : dict) k dflt : d !! k = None → get d k dflt = dflt.
Proof. unfold get. by intros ->. Qed.

End PyFacts.

(** ** Board permissions *)

Section BoardFacts.
Import BoardService.

(** Reading the policy out of the board and comparing it against the three
    literals, one case per lemma. *)
Lemma read_policy_all (board : dict) user :
  board !! "can_read" = Some (PyStr "all") →
  check_read_permission board user = PyBool true.
Proof. intros H. unfold check_read_permission. by rewrite (get_present _ _ _ _ H). Qed.

Lemma read_policy_member (board : dict) user :
  board !! "can_read" = Some (PyStr "member") →
  check_read_permission board user = PyBool (bool_decide (is_Some user)).
Proof. intros H. unfold check_read_permission. by rewrite (get_present _ _ _ _ H). Qed.

Lemma read_policy_admin (board : dict) user :
  board !! "can_read" = Some (PyStr "admin") →
  check_read_permission board user =
    match user with None => PyBool false | Some u => admin_flag u end.
Proof. intros H. unfold check_read_permission. by rewrite (get_present _ _ _ _ H). Qed.

Lemma read_policy_other (board : dict) user v :
  board !! "can_read" = Some v →
  v ≠ PyStr "all" → v ≠ PyStr "member" → v ≠ PyStr "admin" →
  check_read_permission board user = PyBool false.
Proof.
  intros H Hall Hmem Hadm. unfold check_read_permission.
  rewrite (get_present _ _ _ _ H).
  apply eq_str_false in Hall, Hmem, Hadm. by rewrite Hall, Hmem, Hadm.
Qed.

Lemma admin_flag_true (u : dict) :
  admin_flag u = PyBool true ↔ u !! "is_admin" = Some (PyBool true).
Proof.
  unfold admin_flag, get. destruct (u !! "is_admin") as [v|]; simpl.
  - split; congruence.
  - split; discriminate.
Qed.

(** C3: [check_read_permission] is [True] under policy [all] whoever asks;
    under [member] it is [True] exactly when an identity is present; under
    [admin] it is [False] without an identity and otherwise the identity's
    admin flag, so it is [True] exactly when an identity is present whose
    flag is [True]; under any other policy value it is [False]. *)
Theorem check_read_permission_spec (board : dict) (user : option dict) (v : pyval) :
  board !! "can_read" = Some v →
  (v = PyStr "all" → check_read_permission board user = PyBool true) ∧
  (v = PyStr "member" →
     check_read_permission board user = PyBool true ↔ is_Some user) ∧
  (v = PyStr "admin" →
     (check_read_permission board user = PyBool true ↔
        ∃ u, user = Some u ∧ u !! "is_admin" = Some (PyBool true)) ∧
     (truthy (check_read_permission board user) = true ↔
        ∃ u, user = Some u ∧ truthy (admin_flag u) = true)) ∧
  (v ≠ PyStr "all" → v ≠ PyStr "member" → v ≠ PyStr "admin" →
     check_read_permission board user = PyBool false).
Proof.
  intros Hv. repeat split.
  - intros ->. by apply read_policy_all.
  - subst v. rewrite (read_policy_member _ _ Hv).
    intros [= Hd]. by apply bool_decide_eq_true in Hd.
  - subst v. rewrite (read_policy_member _ _ Hv).
    intros Hs. f_equal. by apply bool_decide_eq_true.
  - subst v. rewrite (read_policy_admin _ _ Hv).
    destruct user as [u|]; [|discriminate].
    intros Hf. exists u. split; [done|]. by apply admin_flag_true.
  - subst v. rewrite (read_policy_admin _ _ Hv).
    intros (u & -> & Hf). by apply admin_flag_true.
  - subst v. rewrite (read_policy_admin _ _ Hv).
    destruct user as [u|]; [|discriminate]. intros Hf. by exists u.
  - subst v. rewrite (read_policy_admin _ _ Hv).
    by intros (u & -> & Hf).
  - intros. by eapply read_policy_other.
Qed.

Lemma write_unauthenticated (board : dict) :
  check_write_permission board None = PyBool false.
Proof. reflexivity. Qed.

Lemma write_policy (board u : dict) :
  u ≠ ∅ →
  check_write_permission board (Some u) =
    let can_write := get board "can_write" (PyStr "member") in
    if eq_str can_write "all" then PyBool true
    else if eq_str can_write "member" then PyBool true
    else if eq_str can_write "admin" then admin_flag u
    else PyBool false.
Proof.
  intros Hu. apply dict_truthy_true in Hu.
  unfold check_write_permission. by rewrite Hu.
Qed.

(** C2: without an identity [check_write_permission] is [False] whatever
    the board's [can_write] policy is.  With an identity (a user record,
    which is never the empty dictionary: it carries at least its id), the
    policies [all] and [member] give [True], and the policy [admin] gives
    the identity's admin flag, so [True] exactly when that flag is [True]. *)
Theorem check_write_permission_spec (board u : dict) :
  u ≠ ∅ →
  check_write_permission board None = PyBool false ∧
  (board !! "can_write" = Some (PyStr "all") →
     check_write_permission board (Some u) = PyBool true) ∧
  (board !! "can_write" = Some (PyStr "member") →
     check_write_permission board (Some u) = PyBool true) ∧
  (board !! "can_write" = Some (PyStr "admin") →
     check_write_permission board (Some u) = admin_flag u ∧
     (check_write_permission board (Some u) = PyBool true ↔
        u !! "is_admin" = Some (PyBool true))).
Proof.
  intros Hu. split; [apply write_unauthenticated|].
  rewrite (write_policy board u Hu). repeat split.
  - intros H. by rewrite (get_present _ _ _ _ H).
  - intros H. by rewrite (get_present _ _ _ _ H).
  - by rewrite (get_present _ _ _ _ H).
  - rewrite (get_present _ _ _ _ H). simpl. apply admin_flag_true.
  - rewrite (get_present _ _ _ _ H). simpl. apply admin_flag_true.
Qed.

(** C10: a board record without a [can_read] key is readable by every
    caller, anonymous included, exactly as if its policy were [all]; a board
    record without a [can_write] key is writable by every authenticated
    identity and by no anonymous caller, exactly as if its policy were
    [member]. *)
Theorem missing_policy_defaults_open (board : dict) (user : option dict) :
  (board !! "can_read" = None →
     check_read_permission board user = PyBool true ∧
     check_read_permission board user =
       check_read_permission (<["can_read" := PyStr "all"]> board) user) ∧
  (board !! "can_write" = None →
     check_write_permission board user = PyBool (opt_dict_truthy user) ∧
     check_write_permission board user =
       check_write_permission (<["can_write" := PyStr "member"]> board) user).
Proof.
  split; intros Hnone.
  - unfold check_read_permission.
    rewrite (get_missing _ _ _ Hnone).
    by rewrite (get_present _ _ _ _ (lookup_insert_eq board "can_read" (PyStr "all"))).
  - unfold check_write_permission.
    rewrite (get_missing _ _ _ Hnone).
    rewrite (get_present _ _ _ _ (lookup_insert_eq board "can_write" (PyStr "member"))).
    destruct user as [u|]; [|done]. simpl.
    by destruct (dict_truthy u).
Qed.

Lemma check_read_permission_spec_witness :
  board_admin_only !! "can_read" = Some (PyStr "admin") ∧
  check_read_permission board_admin_only (Some sample_admin) = PyBool true.
Proof.
  assert (Hp : board_admin_only !! "can_read" = Some (PyStr "admin"))
    by reflexivity.
  split; [exact Hp|].
  destruct (check_read_permission_spec board_admin_only (Some sample_admin)
              (PyStr "admin") Hp) as (_ & _ & Hadm & _).
  destruct (Hadm eq_refl) as [Hiff _]. apply Hiff.
  exists sample_admin. split; reflexivity.
Defined.

Lemma check_write_permission_spec_witness :
  sample_user ≠ ∅ ∧
  check_write_permission board_admin_only None = PyBool false ∧
  check_write_permission board_admin_only (Some sample_user) = PyBool false.
Proof.
  assert (Hu : sample_user ≠ ∅).
  { intros He. apply (f_equal (λ m : dict, m !! "id")) in He. vm_compute in He. discriminate. }
  split; [exact Hu|].
  destruct (check_write_permission_spec board_admin_only sample_user Hu)
    as (Hnone & _ & _ & Hadm).
  split; [exact Hnone|].
  destruct (Hadm eq_refl) as [Hflag _]. rewrite Hflag. reflexivity.
Defined.

Lemma missing_policy_defaults_open_witness :
  board_without_policies !! "can_read" = None ∧
  board_without_policies !! "can_write" = None ∧
  check_read_permission board_without_policies None = PyBool true ∧
  check_write_permission board_without_policies (Some sample_user) = PyBool true.
Proof.
  split; [reflexivity|]. split; [reflexivity|].
  destruct (missing_policy_defaults_open board_without_policies None) as [Hr _].
  destruct (missing_policy_defaults_open board_without_policies (Some sample_user))
    as [_ Hw].
  split.
  - apply Hr. reflexivity.
  - destruct (Hw eq_refl) as [Hval _]. rewrite Hval. reflexivity.
Defined.

End BoardFacts.

(** ** Pagination *)

Section PaginationFacts.
Import utils.
Local Open Scope Z_scope.

(** [(total + per_page - 1) // per_page] is the ceiling of the quotient. *)
Lemma ceil_div_bounds total per_page :
  1 ≤ per_page →
  per_page * ((total + per_page - 1) / per_page - 1) < total
    ≤ per_page * ((total + per_page - 1) / per_page).
Proof.
  intros Hpp.
  pose proof (Z.div_mod (total + per_page - 1) per_page ltac:(lia)) as Hdm.
  pose proof (Z.mod_pos_bound (total + per_page - 1) per_page ltac:(lia)) as Hm.
  nia.
Qed.

Lemma calculate_pagination_returns total page per_page :
  0 ≤ total → 1 ≤ per_page →
  calculate_pagination total page per_page =
    let tp := if total >? 0 then (total + per_page - 1) / per_page else 0 in
    Returned {|
      total := total; page := page; per_page := per_page;
      total_pages := tp;
      has_prev := page >? 1;
      has_next := page <? tp;
      page_range :=
        if tp >? 0
        then range (window_start tp page) (window_end tp page + 1)
        else []
    |}.
Proof.
  intros Ht Hpp. unfold calculate_pagination, floordiv.
  destruct (total >? 0) eqn:Hpos; [|reflexivity].
  destruct (Z.eqb_spec per_page 0) as [->|_]; [lia|reflexivity].
Qed.

Lemma window_shape tp page :
  0 < tp → 1 ≤ page →
  1 ≤ window_start tp page ∧
  window_end tp page ≤ tp ∧
  window_end tp page + 1 - window_start tp page = Z.min 5 tp ∧
  (page ≤ tp → window_start tp page ≤ page ≤ window_end tp page).
Proof.
  intros Htp Hp. unfold window_start, window_end.
  destruct (Z.ltb_spec (Z.min tp (Z.max 1 (page - 2) + 4) - Z.max 1 (page - 2)) 4);
    lia.
Qed.

Lemma gtb_bool_decide (a b : Z) : (a >? b) = bool_decide (b < a).
Proof.
  rewrite Z.gtb_ltb. destruct (Z.ltb_spec b a).
  - by rewrite bool_decide_eq_true_2.
  - by rewrite bool_decide_eq_false_2 by lia.
Qed.

Lemma ltb_bool_decide (a b : Z) : (a <? b) = bool_decide (a < b).
Proof.
  destruct (Z.ltb_spec a b).
  - by rewrite bool_decide_eq_true_2.
  - by rewrite bool_decide_eq_false_2 by lia.
Qed.

(** C5: for [total >= 0], [page >= 1] and [per_page >= 1] the call returns
    (it does not raise, also when [page] lies beyond the last page);
    [total_pages] is the ceiling of [total / per_page], zero when [total] is
    zero; [has_prev] is [page > 1] and [has_next] is [page < total_pages];
    [page_range] is the ascending run of exactly [min 5 total_pages]
    consecutive page numbers starting at some [lo], all of them within
    [1 .. total_pages], it is empty when [total_pages] is zero, and it
    contains [page] whenever [1 <= page <= total_pages]. *)
Theorem calculate_pagination_spec (total page per_page : Z) :
  0 ≤ total → 1 ≤ page → 1 ≤ per_page →
  ∃ r, calculate_pagination total page per_page = Returned r ∧
    per_page * (r.(total_pages) - 1) < total ≤ per_page * r.(total_pages) ∧
    (total = 0 → r.(total_pages) = 0) ∧
    r.(has_prev) = bool_decide (1 < page) ∧
    r.(has_next) = bool_decide (page < r.(total_pages)) ∧
    (∃ lo, r.(page_range) = seqZ lo (Z.min 5 r.(total_pages)) ∧
           (0 < r.(total_pages) →
              1 ≤ lo ∧ lo + Z.min 5 r.(total_pages) - 1 ≤ r.(total_pages))) ∧
    length r.(page_range) = Z.to_nat (Z.min 5 r.(total_pages)) ∧
    (∀ q, q ∈ r.(page_range) → 1 ≤ q ≤ r.(total_pages)) ∧
    (1 ≤ page ≤ r.(total_pages) → page ∈ r.(page_range)) ∧
    (r.(total_pages) = 0 → r.(page_range) = []).
Proof.
  intros Ht Hp Hpp.
  rewrite (calculate_pagination_returns total page per_page Ht Hpp).
  cbv zeta. eexists. split; [reflexivity|]. cbn [total_pages has_prev has_next page_range].
  set (tp := if total >? 0 then (total + per_page - 1) / per_page else 0).
  assert (Hceil : per_page * (tp - 1) < total ≤ per_page * tp).
  { subst tp. destruct (Z.gtb_spec total 0).
    - by apply ceil_div_bounds.
    - lia. }
  assert (Htp : 0 ≤ tp) by nia.
  assert (Hrange :
    (if tp >? 0 then range (window_start tp page) (window_end tp page + 1) else [])
    = seqZ (window_start tp page) (Z.min 5 tp)).
  { destruct (Z.gtb_spec tp 0) as [Hpos|Hzero].
    - destruct (window_shape tp page Hpos Hp) as (_ & _ & Hlen & _).
      unfold range. by rewrite Hlen.
    - by rewrite seqZ_nil by lia. }
  rewrite Hrange.
  split; [exact Hceil|].
  split; [intros ->; nia|].
  split; [apply gtb_bool_decide|].
  split; [apply ltb_bool_decide|].
  split.
  { exists (window_start tp page). split; [done|].
    intros Hpos. destruct (window_shape tp page Hpos Hp) as (? & ? & ? & _). lia. }
  split; [apply length_seqZ|].
  split.
  { intros q Hq. apply elem_of_seqZ in Hq.
    assert (Hpos : 0 < tp) by lia.
    destruct (window_shape tp page Hpos Hp) as (? & ? & ? & _). lia. }
  split.
  { intros [_ Hle]. apply elem_of_seqZ.
    assert (Hpos : 0 < tp) by lia.
    destruct (window_shape tp page Hpos Hp) as (? & ? & ? & Hin).
    specialize (Hin Hle). lia. }
  intros Hz. by rewrite seqZ_nil by lia.
Qed.

Lemma calculate_pagination_spec_witness :
  0 ≤ 200 ∧ 1 ≤ 5 ∧ 1 ≤ 20 ∧
  ∃ r, calculate_pagination 200 5 20 = Returned r ∧
       length r.(page_range) = 5%nat ∧ 5 ∈ r.(page_range).
Proof.
  assert (H0 : 0 ≤ 200) by lia.
  assert (H1 : 1 ≤ 5) by lia.
  assert (H2 : 1 ≤ 20) by lia.
  split; [exact H0|]. split; [exact H1|]. split; [exact H2|].
  destruct (calculate_pagination_spec 200 5 20 H0 H1 H2)
    as (r & Hr & Hceil & _ & _ & _ & _ & Hlen & _ & Hin & _).
  exists r. split; [exact Hr|].
  assert (Htp : r.(total_pages) = 10) by nia.
  rewrite Htp in Hlen, Hin. split; [exact Hlen|]. apply Hin. lia.
Defined.

(** C1, as the code has it: with [total = 0], for every requested page
    [p >= 1] and every [per_page >= 1], the call returns [total_pages = 0],
    [page_range = []] and [has_next = false]; [has_prev] is [p > 1], so it is
    false on page 1 and true on every later page. *)
Theorem calculate_pagination_empty (p per_page : Z) :
  1 ≤ p → 1 ≤ per_page →
  calculate_pagination 0 p per_page =
    Returned {| total := 0; page := p; per_page := per_page;
                total_pages := 0;
                has_prev := bool_decide (1 < p);
                has_next := false;
                page_range := [] |}.
Proof.
  intros Hp Hpp. unfold calculate_pagination. simpl.
  rewrite gtb_bool_decide.
  destruct (Z.ltb_spec p 0); [lia | reflexivity].
Qed.

Lemma calculate_pagination_empty_witness :
  1 ≤ 1 ∧ 1 ≤ 20 ∧
  calculate_pagination 0 1 20 =
    Returned {| total := 0; page := 1; per_page := 20; total_pages := 0;
                has_prev := false; has_next := false; page_range := [] |}.
Proof.
  assert (H1 : 1 ≤ 1) by lia.
  assert (H2 : 1 ≤ 20) by lia.
  split; [exact H1|]. split; [exact H2|].
  exact (calculate_pagination_empty 1 20 H1 H2).
Defined.

(** C1 as stated fails on page 2 of an empty listing: [has_prev] is true
    there. *)
Lemma calculate_pagination_empty_page_two :
  calculate_pagination 0 2 20 =
    Returned {| total := 0; page := 2; per_page := 20; total_pages := 0;
                has_prev := true; has_next := false; page_range := [] |}
  ∧ ¬ (∃ r, calculate_pagination 0 2 20 = Returned r ∧
            r.(total_pages) = 0 ∧ r.(page_range) = [] ∧
            r.(has_prev) = false ∧ r.(has_next) = false).
Proof.
  split; [reflexivity|].
  intros (r & Hr & _ & _ & Hprev & _).
  vm_compute in Hr. injection Hr as <-. discriminate Hprev.
Qed.

(** Away from both ends the window is centred on the requested page. *)
Lemma window_centered tp page :
  3 ≤ page → page + 2 ≤ tp →
  window_start tp page = page - 2 ∧ window_end tp page = page + 2.
Proof.
  intros Hlo Hhi. unfold window_start, window_end.
  destruct (Z.ltb_spec (Z.min tp (Z.max 1 (page - 2) + 4) - Z.max 1 (page - 2)) 4);
    lia.
Qed.

(** The cases the test suite runs. *)
Example calculate_pagination_first_page :
  calculate_pagination 100 1 20 =
    Returned {| total := 100; page := 1; per_page := 20; total_pages := 5;
                has_prev := false; has_next := true;
                page_range := [1; 2; 3; 4; 5] |}.
Proof. reflexivity. Qed.

Example calculate_pagination_last_page :
  calculate_pagination 100 5 20 =
    Returned {| total := 100; page := 5; per_page := 20; total_pages := 5;
                has_prev := true; has_next := false;
                page_range := [1; 2; 3; 4; 5] |}.
Proof. reflexivity. Qed.

Example calculate_pagination_page_range :
  calculate_pagination 200 5 20 =
    Returned {| total := 200; page := 5; per_page := 20; total_pages := 10;
                has_prev := true; has_next := true;
                page_range := [3; 4; 5; 6; 7] |}.
Proof. reflexivity. Qed.

(** A page beyond the last one still gets the last window. *)
Example calculate_pagination_beyond_last :
  calculate_pagination 50 9 20 =
    Returned {| total := 50; page := 9; per_page := 20; total_pages := 3;
                has_prev := true; has_next := false;
                page_range := [1; 2; 3] |}.
Proof. reflexivity. Qed.

(** Outside the contract, a page size of zero makes the division raise. *)
Example calculate_pagination_zero_page_size :
  calculate_pagination 10 1 0 = Raised ZeroDivisionError.
Proof. reflexivity. Qed.

End PaginationFacts.

(** ** CSRF validation *)

Section CsrfFacts.
Import utils.

Lemma compare_digest_ascii a b :
  is_ascii a = true → is_ascii b = true →
  compare_digest a b = Returned (bool_decide (a = b)).
Proof.
  intros Ha Hb. unfold compare_digest. rewrite Ha, Hb. simpl. f_equal.
  destruct (String.eqb_spec a b).
  - by rewrite bool_decide_eq_true_2.
  - by rewrite bool_decide_eq_false_2.
Qed.

Lemma compare_digest_non_ascii a b :
  is_ascii a = false ∨ is_ascii b = false →
  compare_digest a b = Raised TypeError.
Proof.
  unfold compare_digest. intros [-> | ->]; [done|].
  by rewrite andb_false_r.
Qed.

(** A missing or empty value on either side is a failure, whatever the
    other side holds. *)
Lemma verify_csrf_token_absent c f :
  opt_str_falsy c = true ∨ opt_str_falsy f = true →
  verify_csrf_token c f = Returned false.
Proof.
  unfold verify_csrf_token. intros [-> | ->]; [done|].
  by rewrite orb_true_r.
Qed.

(** Two non-empty values of which one is not ASCII-only make the
    comparison raise. *)
Lemma verify_csrf_token_non_ascii x y :
  x ≠ "" → y ≠ "" →
  is_ascii x = false ∨ is_ascii y = false →
  verify_csrf_token (Some x) (Some y) = Raised TypeError.
Proof.
  intros Hx Hy Hna. unfold verify_csrf_token, opt_str_falsy.
  apply String.eqb_neq in Hx, Hy. rewrite Hx, Hy. simpl.
  by apply compare_digest_non_ascii.
Qed.

(** C6, as the code has it: a missing or empty value on either side always
    yields [False] and never an exception; and on ASCII-only values the call
    returns, and returns [True] exactly when both values are present,
    non-empty and equal. *)
Theorem verify_csrf_token_spec (cookie_token form_token : option string) :
  (opt_str_falsy cookie_token = true ∨ opt_str_falsy form_token = true →
     verify_csrf_token cookie_token form_token = Returned false) ∧
  (ascii_token cookie_token → ascii_token form_token →
     ∃ b, verify_csrf_token cookie_token form_token = Returned b ∧
          (b = true ↔
             ∃ x, x ≠ "" ∧ cookie_token = Some x ∧ form_token = Some x)).
Proof.
  split; [apply verify_csrf_token_absent|].
  intros Hc Hf.
  destruct (opt_str_falsy cookie_token || opt_str_falsy form_token) eqn:Hfalsy.
  - apply orb_true_iff in Hfalsy as Habsent.
    rewrite (verify_csrf_token_absent _ _ Habsent).
    exists false. split; [done|]. split; [done|].
    intros (x & Hx & -> & ->). simpl in Hfalsy.
    apply String.eqb_neq in Hx. rewrite Hx in Hfalsy. discriminate.
  - unfold verify_csrf_token. rewrite Hfalsy.
    apply orb_false_iff in Hfalsy as [Hcookie Hform].
    destruct cookie_token as [x|]; [|discriminate].
    destruct form_token as [y|]; [|discriminate]. simpl.
    rewrite (compare_digest_ascii x y (Hc x eq_refl) (Hf y eq_refl)).
    eexists. split; [reflexivity|]. rewrite bool_decide_eq_true. split.
    + intros <-. exists x. split; [|done]. by apply String.eqb_neq.
    + by intros (z & _ & [= <-] & [= <-]).
Qed.

Lemma verify_csrf_token_spec_witness :
  ascii_token (Some "test-token-123") ∧
  verify_csrf_token (Some "test-token-123") (Some "test-token-123") = Returned true ∧
  verify_csrf_token None (Some "test-token-123") = Returned false.
Proof.
  assert (Ha : ascii_token (Some "test-token-123")).
  { intros x [= <-]. reflexivity. }
  split; [exact Ha|].
  split.
  - destruct (verify_csrf_token_spec (Some "test-token-123") (Some "test-token-123"))
      as [_ Hiff].
    destruct (Hiff Ha Ha) as (b & Hb & Htrue).
    rewrite Hb. f_equal. apply Htrue. exists "test-token-123". by repeat split.
  - destruct (verify_csrf_token_spec None (Some "test-token-123")) as [Habs _].
    apply Habs. by left.
Defined.

(** C6 as stated fails on two values that are present and byte-for-byte
    equal: two empty strings compare as a failure, and two equal strings that
    are not ASCII-only make the comparison raise instead of returning. *)
Lemma verify_csrf_token_equal_values_rejected :
  verify_csrf_token (Some "") (Some "") = Returned false ∧
  verify_csrf_token (Some "é") (Some "é") = Raised TypeError ∧
  ¬ (∀ c f : option string,
       verify_csrf_token c f = Returned true ↔ ∃ x, c = Some x ∧ f = Some x).
Proof.
  split; [reflexivity|]. split; [reflexivity|].
  intros Hclaim.
  assert (Hbad : verify_csrf_token (Some "") (Some "") = Returned true).
  { apply Hclaim. by exists "". }
  discriminate Hbad.
Qed.

End CsrfFacts.

(** ** Session identity *)

Section AuthFacts.
Import AuthService.

Variable jwt_decode : string → outcome dict.

(** Whatever the cookie holds, whatever the token library answers and
    whatever state the store is in, the resolver returns and leaves the
    store as it was. *)
Lemma get_current_user_returns (request : Request) (s : db) :
  get_current_user jwt_decode request s =
    (Returned (resolved_identity jwt_decode request s), s).
Proof.
  unfold get_current_user, resolved_identity, opt_str_falsy.
  destruct (cookies request !! "access_token") as [tok|]; [|reflexivity].
  destruct (String.eqb tok "") eqn:Hempty; [reflexivity|].
  unfold try_except, mbind, M_bind, lift. simpl.
  destruct (jwt_decode tok) as [payload|e]; simpl.
  - destruct (truthy (get payload "sub" PyNone)); simpl; [|reflexivity].
    unfold select_single. destruct (online s); simpl; [|reflexivity].
    destruct (List.filter _ (users s)) as [|r [|r' l]]; simpl; try reflexivity.
    by destruct (dict_truthy r).
  - by destruct (is_JWTError e).
Qed.

(** An identity, when one is resolved, is a non-empty user row. *)
Lemma get_current_user_identity_nonempty (request : Request) (s s' : db) u :
  get_current_user jwt_decode request s = (Returned (Some u), s') → u ≠ ∅.
Proof.
  rewrite get_current_user_returns. intros [= Hres _].
  unfold resolved_identity in Hres.
  repeat (case_match; try discriminate).
  injection Hres as <-. by apply dict_truthy_true.
Qed.

(** C4, as the code has it: [get_current_user] never raises to its caller.
    It returns [None] when the token cookie is absent or empty, when the
    token library rejects the token (malformed, expired or badly signed: any
    exception it raises), when the claims carry no subject, and when no user
    row matches the subject; a failure of the store is caught as well and
    also yields [None]. *)
Theorem get_current_user_spec (request : Request) (s : db) :
  ∃ r, get_current_user jwt_decode request s = (Returned r, s) ∧
    (opt_str_falsy (cookies request !! "access_token") = true →
       r = None) ∧
    (∀ tok e, cookies request !! "access_token" = Some tok →
       jwt_decode tok = Raised e → r = None) ∧
    (∀ tok payload, cookies request !! "access_token" = Some tok →
       jwt_decode tok = Returned payload →
       (truthy (get payload "sub" PyNone) = false → r = None) ∧
       (List.filter (matches [("id", get payload "sub" PyNone)]) (users s) = [] →
          r = None) ∧
       (online s = false → r = None)).
Proof.
  exists (resolved_identity jwt_decode request s).
  split; [apply get_current_user_returns|].
  unfold resolved_identity, opt_str_falsy.
  split; [|split].
  - destruct (cookies request !! "access_token") as [tok|]; [|done].
    by intros ->.
  - intros tok e -> ->. by destruct (String.eqb tok "").
  - intros tok payload -> ->. destruct (String.eqb tok ""); [done|].
    cbv zeta. split; [|split].
    + by intros ->.
    + intros ->. by repeat case_match.
    + intros ->. by repeat case_match.
Qed.

End AuthFacts.

Section AuthExamples.
Import AuthService.

Lemma get_current_user_spec_witness :
  AuthService.cookies (request_with "expired") !! "access_token" = Some "expired" ∧
  jwt_sample "expired" = Raised ExpiredSignatureError ∧
  get_current_user jwt_sample (request_with "expired") (sample_store true)
    = (Returned None, sample_store true).
Proof.
  split; [reflexivity|]. split; [reflexivity|].
  destruct (get_current_user_spec jwt_sample (request_with "expired")
              (sample_store true)) as (r & Hr & _ & Hrejected & _).
  rewrite Hr. f_equal. f_equal.
  apply (Hrejected "expired" ExpiredSignatureError); reflexivity.
Defined.

(** With a token that verifies and a store that answers, the matching user
    row is the identity. *)
Example get_current_user_valid :
  get_current_user jwt_sample (request_with "valid") (sample_store true)
    = (Returned (Some sample_admin), sample_store true).
Proof. rewrite get_current_user_returns. reflexivity. Qed.

(** C4 as stated fails on a store failure: the lookup raises, and the
    resolver catches it and answers [None] instead of letting it reach the
    caller. *)
Lemma get_current_user_store_failure_caught :
  select_single Users None [("id", PyStr "u-1")] (sample_store false)
    = (Raised UpstreamError, sample_store false) ∧
  get_current_user jwt_sample (request_with "valid") (sample_store false)
    = (Returned None, sample_store false) ∧
  ¬ (∃ e s', get_current_user jwt_sample (request_with "valid") (sample_store false)
             = (Raised e, s')).
Proof.
  split; [reflexivity|].
  rewrite get_current_user_returns.
  split; [reflexivity|].
  intros (e & s' & [=]).
Qed.

End AuthExamples.

(** ** Comments *)

Section CommentFacts.
Import CommentService.

Variable bleach_clean_text : string → string.
Variable gen_random_uuid : db → string.

Lemma filter_id_active id (l : list dict) :
  List.filter (matches [("id", PyStr id); ("is_active", PyBool true)]) l =
  List.filter is_active (rows_with_id id l).
Proof.
  unfold rows_with_id. induction l as [|r l IH]; [reflexivity|].
  cbn [List.filter matches forallb fst snd]. rewrite andb_true_r.
  destruct (bool_decide (r !! "id" = Some (PyStr id))); cbn [andb List.filter].
  - fold (is_active r). destruct (is_active r); by rewrite <- IH.
  - exact IH.
Qed.

Lemma rows_with_id_lookup id (l : list dict) r :
  In r (rows_with_id id l) → r !! "id" = Some (PyStr id).
Proof.
  unfold rows_with_id. intros Hin. apply filter_In in Hin as [_ Hid].
  by apply bool_decide_eq_true in Hid.
Qed.

Lemma project_id_truthy (r : dict) v :
  r !! "id" = Some v → dict_truthy (project (Some ["id"]) r) = true.
Proof.
  intros Hid. apply (dict_truthy_lookup _ "id" v).
  unfold project. apply map_lookup_filter_Some. split; [done|].
  simpl. set_solver.
Qed.

Lemma is_not_none_true v : v ≠ PyNone → is_not_none v = true.
Proof. by destruct v. Qed.

(** C7: when the comment named by [parent_id] itself has a non-null parent
    reference, [create_comment] raises an [HTTPException] and the store is
    left exactly as it was, so no comment is inserted.  When moreover the
    store answers, the post is active and the parent is active, the error is
    the 400 with the detail [Cannot reply to a reply (max 2 levels)].
    Identifiers are non-empty and identify one row. *)
Theorem create_comment_reply_to_reply_rejected
    (s : db) (post_id : string) (user : dict) (content : string)
    (parent_id : string) (now : string) (c : dict) (v : pyval) :
  parent_id ≠ "" →
  rows_with_id parent_id (comments s) = [c] →
  c !! "parent_id" = Some v → v ≠ PyNone →
  ∃ status detail,
    create_comment bleach_clean_text gen_random_uuid
      post_id user content (Some parent_id) now s
    = (Raised (HTTPException status detail), s) ∧
    (∀ p, online s = true →
       rows_with_id post_id (posts s) = [p] → is_active p = true →
       is_active c = true →
       status = 400%Z ∧ detail = "Cannot reply to a reply (max 2 levels)").
Proof.
  intros Hpid Hc Hv Hnn.
  unfold create_comment, try_except, mbind, M_bind, select_single.
  cbn [rows opt_str_to_py].
  destruct (online s) eqn:Hon.
  2:{ eexists _, _. split; [reflexivity|]. intros p [=]. }
  rewrite filter_id_active.
  destruct (List.filter is_active (rows_with_id post_id (posts s)))
    as [|p [|p' l]] eqn:Hposts.
  - eexists _, _. split; [reflexivity|].
    intros p0 _ Hp0 Hact0 _. rewrite Hp0 in Hposts. cbn in Hposts.
    rewrite Hact0 in Hposts. discriminate.
  - destruct (dict_truthy (project (Some ["id"]) p)) eqn:Hp; cbn [negb].
    2:{ eexists _, _. split; [reflexivity|].
        intros p0 _ Hp0 Hact0 _. rewrite Hp0 in Hposts. cbn in Hposts.
        rewrite Hact0 in Hposts. injection Hposts as <-.
        assert (Hid : p0 !! "id" = Some (PyStr post_id)).
        { apply (rows_with_id_lookup post_id (posts s)). rewrite Hp0. by left. }
        rewrite (project_id_truthy _ _ Hid) in Hp. discriminate. }
    unfold mret at 1. unfold M_ret at 1. cbn [opt_str_falsy].
    apply String.eqb_neq in Hpid. rewrite Hpid. cbn [negb].
    rewrite Hon, filter_id_active, Hc. cbn [List.filter].
    destruct (is_active c) eqn:Hact.
    2:{ eexists _, _. split; [reflexivity|]. intros p0 _ _ _ [=]. }
    cbn [project]. rewrite (dict_truthy_lookup _ _ _ Hv). cbn [negb].
    unfold mret at 1. unfold M_ret at 1.
    rewrite (get_present _ _ _ _ Hv), (is_not_none_true _ Hnn).
    eexists _, _. split; [reflexivity|]. done.
  - eexists _, _. split; [reflexivity|].
    intros p0 _ Hp0 Hact0 _. rewrite Hp0 in Hposts. cbn in Hposts.
    rewrite Hact0 in Hposts. discriminate.
Qed.

End CommentFacts.

Section CommentExamples.
Import CommentService.

Lemma create_comment_reply_to_reply_rejected_witness :
  "c-2" ≠ "" ∧
  rows_with_id "c-2" (comments (sample_store true)) = [reply_comment] ∧
  reply_comment !! "parent_id" = Some (PyStr "c-1") ∧
  PyStr "c-1" ≠ PyNone ∧
  create_comment clean_sample uuid_sample
    "p-1" sample_user "again" (Some "c-2") "2024-01-01T00:00:00+00:00"
    (sample_store true)
  = (Raised (HTTPException 400 "Cannot reply to a reply (max 2 levels)"),
     sample_store true).
Proof.
  assert (H1 : "c-2" ≠ "") by discriminate.
  assert (H2 : rows_with_id "c-2" (comments (sample_store true)) = [reply_comment])
    by reflexivity.
  assert (H3 : reply_comment !! "parent_id" = Some (PyStr "c-1")) by reflexivity.
  assert (H4 : PyStr "c-1" ≠ PyNone) by discriminate.
  split; [exact H1|]. split; [exact H2|]. split; [exact H3|]. split; [exact H4|].
  destruct (create_comment_reply_to_reply_rejected clean_sample uuid_sample
              (sample_store true) "p-1"
              sample_user "again" "c-2" "2024-01-01T00:00:00+00:00"
              reply_comment (PyStr "c-1") H1 H2 H3 H4)
    as (status & detail & Hres & Hexact).
  assert (Hcode : status = 400%Z ∧
                  detail = "Cannot reply to a reply (max 2 levels)")
    by (apply (Hexact sample_post); reflexivity).
  destruct Hcode as [-> ->]. exact Hres.
Defined.

(** A reply to a root comment is accepted and stored: one more row, whose
    parent reference is the root comment. *)
Example create_comment_reply_to_root :
  ∃ view s',
    create_comment clean_sample uuid_sample
      "p-1" sample_user "first reply" (Some "c-1") "2024-01-01T00:00:00+00:00"
      (sample_store true)
    = (Returned view, s') ∧
    comments s' = comments (sample_store true) ++ [comment view] ∧
    comment view !! "parent_id" = Some (PyStr "c-1").
Proof.
  eexists _, _. split; [reflexivity|]. split; reflexivity.
Qed.

End CommentExamples.

(** ** Sanitization *)

Section SanitizeFacts.
Import utils.

Variable bleach_clean_html : string → string.
Variable bleach_clean_text : string → string.

(** Absent and empty input pass through both policies untouched. *)
Lemma sanitize_passthrough :
  sanitize_html bleach_clean_html None = None ∧
  sanitize_html bleach_clean_html (Some EmptyString) = Some EmptyString ∧
  sanitize_text bleach_clean_text None = None ∧
  sanitize_text bleach_clean_text (Some EmptyString) = Some EmptyString.
Proof. repeat split. Qed.

(** On any other input the policies are the third-party cleaner. *)
Lemma sanitize_text_nonempty t :
  t ≠ EmptyString →
  sanitize_text bleach_clean_text (Some t) = Some (bleach_clean_text t).
Proof.
  intros Ht. unfold sanitize_text, opt_str_falsy.
  apply String.eqb_neq in Ht. by rewrite Ht.
Qed.

Lemma sanitize_html_nonempty t :
  t ≠ EmptyString →
  sanitize_html bleach_clean_html (Some t) = Some (bleach_clean_html t).
Proof.
  intros Ht. unfold sanitize_html, opt_str_falsy.
  apply String.eqb_neq in Ht. by rewrite Ht.
Qed.

(** Re-applying the plain-text policy changes nothing exactly when the
    cleaner fixes each of its own non-empty outputs; the repository does not
    contain the cleaner, so whether it does is left open here. *)
Lemma sanitize_text_idempotent_iff :
  (∀ s, sanitize_text bleach_clean_text (sanitize_text bleach_clean_text s)
        = sanitize_text bleach_clean_text s) ↔
  (∀ t, t ≠ EmptyString → bleach_clean_text t ≠ EmptyString →
        bleach_clean_text (bleach_clean_text t) = bleach_clean_text t).
Proof.
  split.
  - intros Hidem t Ht Hout. specialize (Hidem (Some t)).
    rewrite (sanitize_text_nonempty t Ht) in Hidem.
    rewrite (sanitize_text_nonempty _ Hout) in Hidem. congruence.
  - intros Hfix [t|]; [|reflexivity].
    destruct (String.eqb_spec t EmptyString) as [->|Ht]; [reflexivity|].
    rewrite (sanitize_text_nonempty t Ht).
    destruct (String.eqb_spec (bleach_clean_text t) EmptyString) as [He|Hout].
    + rewrite He. reflexivity.
    + rewrite (sanitize_text_nonempty _ Hout). f_equal. by apply Hfix.
Qed.

End SanitizeFacts.

(** * Further properties of the services *)

(** ** Permissions across callers *)

Section PermissionOrder.
Import BoardService.

(** The policy values the two checks recognise. *)
Lemma eq_str_cases (v : pyval) :
  v = PyStr "all" ∨ v = PyStr "member" ∨ v = PyStr "admin" ∨
  (eq_str v "all" = false ∧ eq_str v "member" = false ∧ eq_str v "admin" = false).
Proof.
  destruct (eq_str v "all") eqn:Ha; [left; by apply eq_str_true|].
  destruct (eq_str v "member") eqn:Hm; [right; left; by apply eq_str_true|].
  destruct (eq_str v "admin") eqn:Hd; [right; right; left; by apply eq_str_true|].
  by repeat right.
Qed.

Lemma read_anonymous_covers (board : dict) (u : dict) :
  truthy (check_read_permission board None) = true →
  check_read_permission board (Some u) = PyBool true.
Proof.
  unfold check_read_permission.
  destruct (eq_str_cases (get board "can_read" (PyStr "all")))
    as [-> | [-> | [-> | (-> & -> & ->)]]]; simpl; done.
Qed.

(** X1: whatever an anonymous caller may read, every identity may read: if
    [check_read_permission] is truthy without a user, it is [True] with any
    user. *)
Theorem read_anonymous_then_everyone (board : dict) (u : dict) :
  truthy (check_read_permission board None) = true →
  check_read_permission board (Some u) = PyBool true.
Proof. apply read_anonymous_covers. Qed.

Lemma read_anonymous_then_everyone_witness :
  truthy (check_read_permission board_without_policies None) = true ∧
  check_read_permission board_without_policies (Some sample_user) = PyBool true.
Proof.
  assert (H : truthy (check_read_permission board_without_policies None) = true)
    by reflexivity.
  split; [exact H|].
  exact (read_anonymous_then_everyone board_without_policies sample_user H).
Defined.

(** X2: an identity whose admin flag is [True] is granted both rights on
    every board whose policies are among [all], [member] and [admin] or are
    not set. *)
Theorem admin_granted_on_known_policies (board u : dict) (r w : pyval) :
  u !! "is_admin" = Some (PyBool true) →
  get board "can_read" (PyStr "all") = r →
  get board "can_write" (PyStr "member") = w →
  r = PyStr "all" ∨ r = PyStr "member" ∨ r = PyStr "admin" →
  w = PyStr "all" ∨ w = PyStr "member" ∨ w = PyStr "admin" →
  check_read_permission board (Some u) = PyBool true ∧
  check_write_permission board (Some u) = PyBool true.
Proof.
  intros Hflag Hr Hw Hrk Hwk.
  assert (Hu : dict_truthy u = true) by (by eapply dict_truthy_lookup).
  unfold check_read_permission, check_write_permission.
  rewrite Hr, Hw, Hu. unfold get. rewrite Hflag. simpl.
  destruct Hrk as [-> | [-> | ->]], Hwk as [-> | [-> | ->]]; by simpl.
Qed.

Lemma admin_granted_on_known_policies_witness :
  check_read_permission board_admin_only (Some sample_admin) = PyBool true ∧
  check_write_permission board_admin_only (Some sample_admin) = PyBool true.
Proof.
  apply (admin_granted_on_known_policies board_admin_only sample_admin
           (PyStr "admin") (PyStr "admin")); try reflexivity; auto.
Defined.

(** X3: the write check fails closed: under a [can_write] value other than
    [all], [member] and [admin] nobody may write, admins included. *)
Theorem write_unknown_policy_denied (board : dict) (user : option dict) (v : pyval) :
  board !! "can_write" = Some v →
  v ≠ PyStr "all" → v ≠ PyStr "member" → v ≠ PyStr "admin" →
  check_write_permission board user = PyBool false.
Proof.
  intros Hv Hall Hmem Hadm. unfold check_write_permission.
  rewrite (get_present _ _ _ _ Hv).
  apply eq_str_false in Hall, Hmem, Hadm. rewrite Hall, Hmem, Hadm.
  destruct user as [u|]; [|done]. by destruct (dict_truthy u).
Qed.

Lemma write_unknown_policy_denied_witness :
  check_write_permission (<["can_write" := PyStr "nobody"]> ∅) (Some sample_admin)
    = PyBool false.
Proof.
  apply (write_unknown_policy_denied _ _ (PyStr "nobody")); [reflexivity|..];
    discriminate.
Defined.

(** X4: the boards listed for an anonymous caller are a sublist of the
    boards listed for any caller, in the same order. *)
Theorem visible_boards_anonymous_sublist (bs : list dict) (user : option dict) :
  sublist (boards.visible_boards bs None) (boards.visible_boards bs user).
Proof.
  unfold boards.visible_boards. induction bs as [|b bs IH]; [constructor|].
  cbn [List.filter].
  destruct (truthy (check_read_permission b None)) eqn:Hanon.
  - destruct user as [u|].
    + rewrite (read_anonymous_covers b u Hanon). simpl.
      by apply sublist_skip.
    + rewrite Hanon. by apply sublist_skip.
  - destruct (truthy (check_read_permission b user)); [by apply sublist_cons|done].
Qed.

End PermissionOrder.

(** ** Pagination beyond the contract *)

Section PaginationMore.
Import utils.
Local Open Scope Z_scope.

(** X5: on arbitrary integers [calculate_pagination] raises exactly when
    [per_page] is zero while [total] is positive, and then it is the
    division that raises; every other input returns. *)
Theorem calculate_pagination_raises_iff (total page per_page : Z) :
  (∀ e, calculate_pagination total page per_page = Raised e →
        e = ZeroDivisionError) ∧
  ((∃ e, calculate_pagination total page per_page = Raised e) ↔
   per_page = 0 ∧ 0 < total).
Proof.
  unfold calculate_pagination, floordiv.
  destruct (Z.gtb_spec total 0) as [Hpos|Hle];
    [destruct (Z.eqb_spec per_page 0) as [->|Hne]|].
  - split; [by intros e [= <-]|]. split; [done|]. intros _. by eexists.
  - split; [done|]. split; [by intros [e ?]|]. by intros [? _].
  - split; [done|]. split; [by intros [e ?]|]. intros [_ ?]. lia.
Qed.

(** X6: [has_next] tells whether rows remain after the current page: for
    [total >= 0] and [per_page >= 1] it is true exactly when
    [page * per_page < total], whatever integer [page] is. *)
Theorem has_next_iff_rows_remain (total page per_page : Z) :
  0 ≤ total → 1 ≤ per_page →
  ∃ r, calculate_pagination total page per_page = Returned r ∧
       (r.(has_next) = true ↔ page * per_page < total).
Proof.
  intros Ht Hpp.
  rewrite (calculate_pagination_returns total page per_page Ht Hpp).
  cbv zeta. eexists. split; [reflexivity|]. cbn [has_next].
  rewrite Z.ltb_lt.
  destruct (Z.gtb_spec total 0) as [Hpos|Hle].
  - pose proof (ceil_div_bounds total per_page Hpp) as [Hlo Hhi].
    split; intros H; nia.
  - assert (total = 0) as -> by lia. split; intros H; nia.
Qed.

Lemma has_next_iff_rows_remain_witness :
  0 ≤ 41 ∧ 1 ≤ 20 ∧
  ∃ r, calculate_pagination 41 2 20 = Returned r ∧ r.(has_next) = true.
Proof.
  assert (H0 : 0 ≤ 41) by lia. assert (H1 : 1 ≤ 20) by lia.
  split; [exact H0|]. split; [exact H1|].
  destruct (has_next_iff_rows_remain 41 2 20 H0 H1) as (r & Hr & Hiff).
  exists r. split; [exact Hr|]. apply Hiff. lia.
Defined.

(** The window in closed form. *)
Lemma window_closed_form tp page :
  0 < tp →
  window_start tp page = Z.max 1 (Z.min (page - 2) (tp - 4)) ∧
  window_end tp page + 1 - window_start tp page = Z.min 5 tp.
Proof.
  intros Htp. unfold window_start, window_end.
  destruct (Z.ltb_spec (Z.min tp (Z.max 1 (page - 2) + 4) - Z.max 1 (page - 2)) 4);
    lia.
Qed.

(** X7: for [total >= 1] and [per_page >= 1] and every integer [page],
    also zero, negative or beyond the last page, [page_range] is the run of
    [min 5 total_pages] pages that starts at
    [max 1 (min (page - 2) (total_pages - 4))]: centred on [page] where there
    is room, and otherwise the first or the last five pages. *)
Theorem page_range_closed_form (total page per_page : Z) :
  1 ≤ total → 1 ≤ per_page →
  ∃ r, calculate_pagination total page per_page = Returned r ∧
       r.(page_range) =
         seqZ (Z.max 1 (Z.min (page - 2) (r.(total_pages) - 4)))
              (Z.min 5 r.(total_pages)).
Proof.
  intros Ht Hpp.
  rewrite (calculate_pagination_returns total page per_page ltac:(lia) Hpp).
  cbv zeta. eexists. split; [reflexivity|]. cbn [page_range total_pages].
  destruct (Z.gtb_spec total 0) as [_|?]; [|lia].
  pose proof (ceil_div_bounds total per_page Hpp) as [Hlo Hhi].
  set (tp := (total + per_page - 1) / per_page) in *.
  assert (Htp : 0 < tp) by nia.
  destruct (Z.gtb_spec tp 0) as [_|?]; [|lia].
  destruct (window_closed_form tp page Htp) as [Hstart Hlen].
  unfold range. by rewrite Hlen, Hstart.
Qed.

Lemma page_range_closed_form_witness :
  1 ≤ 200 ∧ 1 ≤ 20 ∧
  ∃ r, calculate_pagination 200 (-3) 20 = Returned r ∧
       r.(page_range) = [1; 2; 3; 4; 5].
Proof.
  assert (H0 : 1 ≤ 200) by lia. assert (H1 : 1 ≤ 20) by lia.
  split; [exact H0|]. split; [exact H1|].
  destruct (page_range_closed_form 200 (-3) 20 H0 H1) as (r & Hr & Hrange).
  exists r. split; [exact Hr|]. rewrite Hrange.
  vm_compute in Hr. injection Hr as <-. reflexivity.
Defined.

Lemma calculate_pagination_raises_iff_witness :
  calculate_pagination 10 1 0 = Raised ZeroDivisionError.
Proof.
  destruct (calculate_pagination_raises_iff 10 1 0) as [Hkind Hiff].
  destruct Hiff as [_ Hraise].
  destruct Hraise as [e He]; [lia|].
  rewrite He. f_equal. by apply Hkind.
Defined.

End PaginationMore.

(** ** CSRF validation on arbitrary strings *)

Section CsrfMore.
Import utils.

Lemma is_ascii_and_true a b :
  is_ascii a && is_ascii b = true ↔ is_ascii a = true ∧ is_ascii b = true.
Proof. apply andb_true_iff. Qed.

(** X8: [verify_csrf_token] never accepts a mismatch: it returns [True]
    only on two present, non-empty, ASCII-only values that are equal. *)
Theorem verify_csrf_token_sound (cookie_token form_token : option string) :
  verify_csrf_token cookie_token form_token = Returned true →
  ∃ x, cookie_token = Some x ∧ form_token = Some x ∧
       x ≠ "" ∧ is_ascii x = true.
Proof.
  unfold verify_csrf_token, compare_digest.
  destruct (opt_str_falsy cookie_token || opt_str_falsy form_token) eqn:Hf;
    [discriminate|].
  apply orb_false_iff in Hf as [Hc Hfm].
  destruct cookie_token as [x|]; [|discriminate].
  destruct form_token as [y|]; [|discriminate]. simpl in *.
  destruct (is_ascii x && is_ascii y) eqn:Ha; [|discriminate].
  apply is_ascii_and_true in Ha as [Hax _].
  intros [= Heq]. apply String.eqb_eq in Heq as <-.
  exists x. repeat split; try done. by apply String.eqb_neq.
Qed.

Lemma verify_csrf_token_sound_witness :
  verify_csrf_token (Some "tok") (Some "tok") = Returned true ∧
  ∃ x, Some "tok" = Some x ∧ x ≠ "".
Proof.
  assert (H : verify_csrf_token (Some "tok") (Some "tok") = Returned true)
    by reflexivity.
  split; [exact H|].
  destruct (verify_csrf_token_sound _ _ H) as (x & Hc & _ & Hne & _).
  by exists x.
Defined.

(** X9: the order of the two values does not matter. *)
Theorem verify_csrf_token_sym (a b : option string) :
  verify_csrf_token a b = verify_csrf_token b a.
Proof.
  unfold verify_csrf_token, compare_digest.
  rewrite (orb_comm (opt_str_falsy a)).
  destruct (opt_str_falsy b || opt_str_falsy a); [done|].
  rewrite (andb_comm (is_ascii (default "" a))).
  by rewrite (String.eqb_sym (default "" a)).
Qed.

(** X10: [verify_csrf_token] raises exactly when both values are present
    and non-empty and one of them is not ASCII-only, and what it raises
    then is [TypeError]. *)
Theorem verify_csrf_token_raises_iff (cookie_token form_token : option string) :
  (∀ e, verify_csrf_token cookie_token form_token = Raised e → e = TypeError) ∧
  ((∃ e, verify_csrf_token cookie_token form_token = Raised e) ↔
   ∃ x y, cookie_token = Some x ∧ form_token = Some y ∧ x ≠ "" ∧ y ≠ "" ∧
          (is_ascii x = false ∨ is_ascii y = false)).
Proof.
  split.
  - unfold verify_csrf_token, compare_digest. intros e.
    repeat case_match; congruence.
  - split.
    + intros [e He]. unfold verify_csrf_token, compare_digest in He.
      destruct (opt_str_falsy cookie_token || opt_str_falsy form_token) eqn:Hf;
        [discriminate|].
      apply orb_false_iff in Hf as [Hc Hfm].
      destruct cookie_token as [x|]; [|discriminate].
      destruct form_token as [y|]; [|discriminate]. simpl in *.
      exists x, y. repeat split; try by apply String.eqb_neq.
      destruct (is_ascii x), (is_ascii y); simpl in He; try discriminate; auto.
    + intros (x & y & -> & -> & Hx & Hy & Hna).
      exists TypeError. by apply verify_csrf_token_non_ascii.
Qed.

Lemma verify_csrf_token_raises_iff_witness :
  ∃ e, verify_csrf_token (Some "é") (Some "e") = Raised e.
Proof.
  destruct (verify_csrf_token_raises_iff (Some "é") (Some "e")) as [_ Hiff].
  apply Hiff. exists "é", "e". repeat split; try discriminate. by left.
Defined.

End CsrfMore.

(** ** Guards on the session identity *)

Section GuardFacts.
Import AuthService.

Variable jwt_decode : string → outcome dict.

Lemma resolved_identity_truthy request s u :
  resolved_identity jwt_decode request s = Some u → dict_truthy u = true.
Proof.
  unfold resolved_identity. intros H.
  repeat (case_match; try discriminate). by injection H as <-.
Qed.

Lemma require_auth_returns request s :
  require_auth jwt_decode request s =
    (match resolved_identity jwt_decode request s with
     | Some u => Returned u
     | None => Raised (HTTPException 401 "Not authenticated")
     end, s).
Proof.
  unfold require_auth, mbind, M_bind. rewrite get_current_user_returns.
  destruct (resolved_identity jwt_decode request s) as [u|] eqn:Hres; [|done].
  simpl. by rewrite (resolved_identity_truthy _ _ _ Hres).
Qed.

Lemma require_admin_returns request s :
  require_admin jwt_decode request s =
    (match resolved_identity jwt_decode request s with
     | Some u =>
         if truthy (get u "is_admin" PyNone) then Returned u
         else Raised (HTTPException 403 "Admin access required")
     | None => Raised (HTTPException 401 "Not authenticated")
     end, s).
Proof.
  unfold require_admin, mbind, M_bind. rewrite require_auth_returns.
  destruct (resolved_identity jwt_decode request s) as [u|]; [|done].
  by destruct (truthy (get u "is_admin" PyNone)).
Qed.

(** X11: [require_auth] hands on exactly the identity [get_current_user]
    resolves, which is never the empty dictionary, and raises 401
    [Not authenticated] when none is resolved; the store is left as it was.
    While the store does not answer, every request is refused with that
    401. *)
Theorem require_auth_spec request s :
  ((∃ u, u ≠ ∅ ∧
         get_current_user jwt_decode request s = (Returned (Some u), s) ∧
         require_auth jwt_decode request s = (Returned u, s)) ∨
   (get_current_user jwt_decode request s = (Returned None, s) ∧
    require_auth jwt_decode request s
      = (Raised (HTTPException 401 "Not authenticated"), s))) ∧
  (online s = false →
     require_auth jwt_decode request s
       = (Raised (HTTPException 401 "Not authenticated"), s)).
Proof.
  rewrite require_auth_returns, get_current_user_returns. split.
  - destruct (resolved_identity jwt_decode request s) as [u|] eqn:Hres.
    + left. exists u. split; [|done].
      apply dict_truthy_true. by eapply resolved_identity_truthy.
    + by right.
  - intros Hoff. unfold resolved_identity. rewrite Hoff.
    by repeat case_match.
Qed.

(** X12: [require_admin] returns an identity only when its [is_admin] value
    is truthy; an identity without a truthy [is_admin] is refused with 403
    [Admin access required], and a request without identity with 401. *)
Theorem require_admin_spec request s :
  (∀ u s', require_admin jwt_decode request s = (Returned u, s') →
     s' = s ∧ u ≠ ∅ ∧ truthy (get u "is_admin" PyNone) = true ∧
     get_current_user jwt_decode request s = (Returned (Some u), s)) ∧
  (∀ u, get_current_user jwt_decode request s = (Returned (Some u), s) →
     truthy (get u "is_admin" PyNone) = false →
     require_admin jwt_decode request s
       = (Raised (HTTPException 403 "Admin access required"), s)) ∧
  (get_current_user jwt_decode request s = (Returned None, s) →
     require_admin jwt_decode request s
       = (Raised (HTTPException 401 "Not authenticated"), s)).
Proof.
  rewrite require_admin_returns, get_current_user_returns.
  destruct (resolved_identity jwt_decode request s) as [u|] eqn:Hres.
  - split; [|split].
    + intros u' s' H.
      destruct (truthy (get u "is_admin" PyNone)) eqn:Hadm; [|discriminate].
      injection H as <- <-. repeat split; try done.
      apply dict_truthy_true. by eapply resolved_identity_truthy.
    + intros u' [= <-] ->. done.
    + discriminate.
  - split; [|split]; [discriminate|discriminate|done].
Qed.

(** X13: whoever passes [require_admin] may read and write every board
    whose policies are among [all], [member] and [admin] or are not set. *)
Theorem require_admin_then_permitted request s u s' (board : dict) (r w : pyval) :
  require_admin jwt_decode request s = (Returned u, s') →
  get board "can_read" (PyStr "all") = r →
  get board "can_write" (PyStr "member") = w →
  r = PyStr "all" ∨ r = PyStr "member" ∨ r = PyStr "admin" →
  w = PyStr "all" ∨ w = PyStr "member" ∨ w = PyStr "admin" →
  truthy (BoardService.check_read_permission board (Some u)) = true ∧
  truthy (BoardService.check_write_permission board (Some u)) = true.
Proof.
  rewrite require_admin_returns.
  destruct (resolved_identity jwt_decode request s) as [u'|] eqn:Hres;
    [|discriminate].
  destruct (truthy (get u' "is_admin" PyNone)) eqn:Hadm; [|discriminate].
  intros [= <- <-] Hr Hw Hrk Hwk.
  pose proof (resolved_identity_truthy _ _ _ Hres) as Hu.
  assert (Hflag : truthy (get u' "is_admin" (PyBool false)) = true).
  { unfold get in *. by destruct (u' !! "is_admin"). }
  unfold BoardService.check_read_permission, BoardService.check_write_permission.
  rewrite Hr, Hw, Hu.
  destruct Hrk as [-> | [-> | ->]], Hwk as [-> | [-> | ->]]; by simpl.
Qed.

(** X14: the session identity is the user row that [get_user_by_id] finds
    for the subject of the token: with a non-empty token that verifies and
    carries the non-empty subject [uid], both calls give the same result in
    every state of the store. *)
Theorem get_current_user_is_get_user_by_id request s tok payload uid :
  cookies request !! "access_token" = Some tok → tok ≠ "" →
  jwt_decode tok = Returned payload →
  payload !! "sub" = Some (PyStr uid) → uid ≠ "" →
  get_current_user jwt_decode request s = get_user_by_id uid s.
Proof.
  intros Hcookie Htok Hdec Hsub Huid.
  rewrite get_current_user_returns. unfold resolved_identity.
  rewrite Hcookie. apply String.eqb_neq in Htok. rewrite Htok, Hdec.
  cbv zeta. rewrite (get_present _ _ _ _ Hsub). simpl.
  apply String.eqb_neq in Huid. rewrite Huid. simpl.
  unfold get_user_by_id, try_except, mbind, M_bind, select_single. simpl.
  destruct (online s); [|done].
  destruct (List.filter _ (users s)) as [|r [|r' l]] eqn:Hrows; try done.
  assert (Hin : In r (List.filter (matches [("id", PyStr uid)]) (users s)))
    by (rewrite Hrows; by left).
  apply filter_In in Hin as [_ Hm]. simpl in Hm. rewrite andb_true_r in Hm.
  apply bool_decide_eq_true in Hm.
  by rewrite (dict_truthy_lookup _ _ _ Hm).
Qed.

End GuardFacts.

(** ** Creating and deleting comments *)

Section CommentMore.
Import CommentService.

Variable bleach_clean_text : string → string.
Variable gen_random_uuid : db → string.

Ltac refused := eexists _, _; reflexivity.

(** What [create_comment] does, in one equation: when the checks pass it
    appends the new row and returns it, and otherwise it raises an
    [HTTPException] without touching the store. *)
Lemma create_comment_run post_id user content parent_id now s :
  ∃ code detail,
    create_comment bleach_clean_text gen_random_uuid
      post_id user content parent_id now s =
    if comment_accepted s post_id user parent_id then
      let stored :=
        <["id" := PyStr (gen_random_uuid s)]>
        (<["post_id" := PyStr post_id]>
        (<["user_id" := default PyNone (user !! "id")]>
        (<["parent_id" := opt_str_to_py parent_id]>
        (<["content" := opt_str_to_py
             (utils.sanitize_text bleach_clean_text (Some content))]>
        (<["is_active" := PyBool true]>
        (<["created_at" := PyStr now]>
        (<["updated_at" := PyStr now]> ∅))))))) in
      (Returned {|
         comment := stored;
         author :=
           <["id" := default PyNone (user !! "id")]>
           (<["username" := get user "username" (PyStr "Unknown")]>
           (<["email" := get user "email" (PyStr "")]> ∅));
         replies := [] |},
       set_rows Comments (comments s ++ [stored]) s)
    else (Raised (HTTPException code detail), s).
Proof.
  unfold create_comment, comment_accepted, try_except, mbind, M_bind,
    select_single.
  cbn [rows]. destruct (online s) eqn:Hon; [|refused]. cbn [andb].
  destruct (List.filter _ (posts s)) as [|p [|p' lp]]; [refused| |refused].
  destruct (dict_truthy (project (Some ["id"]) p)); [|refused].
  cbn [negb andb]. cbv [mret M_ret].
  destruct (opt_str_falsy parent_id) eqn:Hpid; cbn [negb orb].
  - unfold subscript, insert. cbv [mret M_ret].
    destruct (user !! "id") as [uid|] eqn:Huid; [|refused].
    rewrite bool_decide_eq_true_2 by eauto. cbn [rows default].
    rewrite Hon. by exists 0%Z, EmptyString.
  - rewrite Hon.
    destruct (List.filter _ (comments s)) as [|c [|c' lc]]; [refused| |refused].
    cbn [project]. destruct (dict_truthy c); [|refused]. cbn [negb andb].
    destruct (is_not_none (get c "parent_id" PyNone)); [refused|].
    cbn [negb]. unfold subscript, insert. cbv [mret M_ret].
    destruct (user !! "id") as [uid|] eqn:Huid; [|refused].
    rewrite bool_decide_eq_true_2 by eauto. cbn [rows default].
    rewrite Hon. by exists 0%Z, EmptyString.
Qed.

(** X15: [create_comment] is all or nothing.  Whatever the arguments and
    the state of the store, either it raises an [HTTPException] and the
    store is exactly as before, or it returns and the store has gained
    exactly one comment row, the returned one, appended to the comments:
    it carries the identifier the store assigned, the given post and parent
    references and the caller's id as [user_id], and it is active; users and
    posts are untouched. *)
Theorem create_comment_outcome post_id user content parent_id now s r s' :
  create_comment bleach_clean_text gen_random_uuid
    post_id user content parent_id now s = (r, s') →
  (∃ code detail, r = Raised (HTTPException code detail) ∧ s' = s) ∨
  (∃ view, r = Returned view ∧
     comments s' = comments s ++ [comment view] ∧
     users s' = users s ∧ posts s' = posts s ∧ online s' = online s ∧
     comment view !! "id" = Some (PyStr (gen_random_uuid s)) ∧
     comment view !! "post_id" = Some (PyStr post_id) ∧
     comment view !! "parent_id" = Some (opt_str_to_py parent_id) ∧
     comment view !! "is_active" = Some (PyBool true) ∧
     comment view !! "user_id" = user !! "id").
Proof.
  destruct (create_comment_run post_id user content parent_id now s)
    as (code & detail & ->).
  destruct (comment_accepted s post_id user parent_id) eqn:Hacc.
  - cbv zeta. intros [= <- <-]. right. eexists. split; [reflexivity|].
    cbn [comment set_rows comments users posts online].
    repeat split; try done.
    unfold comment_accepted in Hacc.
    apply andb_true_iff in Hacc as [_ Hid]. apply bool_decide_eq_true in Hid.
    destruct Hid as [uid Huid]. by rewrite Huid.
  - intros [= <- <-]. left. by eexists _, _.
Qed.

Lemma is_not_none_false v : is_not_none v = false ↔ v = PyNone.
Proof. destruct v; simpl; split; congruence. Qed.

(** X16: [create_comment] stores a comment only on an active post and only
    under an active top-level comment: if it returns, the store answered,
    exactly one active post has the given id, and a non-empty [parent_id]
    names exactly one active comment, whose own parent reference is null. *)
Theorem create_comment_success_requires post_id user content parent_id now s view s' :
  create_comment bleach_clean_text gen_random_uuid
    post_id user content parent_id now s = (Returned view, s') →
  online s = true ∧
  (∃ p, List.filter is_active (rows_with_id post_id (posts s)) = [p]) ∧
  (∀ pid, parent_id = Some pid → pid ≠ "" →
     ∃ c, List.filter is_active (rows_with_id pid (comments s)) = [c] ∧
          get c "parent_id" PyNone = PyNone).
Proof.
  destruct (create_comment_run post_id user content parent_id now s)
    as (code & detail & ->).
  destruct (comment_accepted s post_id user parent_id) eqn:Hacc; [|discriminate].
  intros _. unfold comment_accepted in Hacc.
  apply andb_true_iff in Hacc as [Hacc _].
  apply andb_true_iff in Hacc as [Hacc Hparent].
  apply andb_true_iff in Hacc as [Hon Hpost].
  split; [done|]. split.
  - rewrite filter_id_active in Hpost.
    destruct (List.filter is_active _) as [|p [|p' lp]]; try discriminate.
    by exists p.
  - intros pid -> Hpid. cbn [opt_str_falsy opt_str_to_py] in Hparent.
    apply String.eqb_neq in Hpid. rewrite Hpid in Hparent. cbn [orb] in Hparent.
    rewrite filter_id_active in Hparent.
    destruct (List.filter is_active _) as [|c [|c' lc]]; try discriminate.
    exists c. split; [done|].
    apply andb_true_iff in Hparent as [_ Hroot].
    apply is_not_none_false. by destruct (is_not_none _).
Qed.

(** X17: [create_comment] keeps replies one level deep: if every stored
    comment that names a parent names a top-level comment, this is still so
    after the call, whether it stores the new comment or refuses it.  The
    given [parent_id] is absent or a non-empty id. *)
Theorem create_comment_keeps_two_levels post_id user content parent_id now s r s' :
  parent_id ≠ Some "" →
  two_levels (comments s) →
  create_comment bleach_clean_text gen_random_uuid
    post_id user content parent_id now s = (r, s') →
  two_levels (comments s').
Proof.
  intros Hne Hinv.
  destruct (create_comment_run post_id user content parent_id now s)
    as (code & detail & ->).
  destruct (comment_accepted s post_id user parent_id) eqn:Hacc;
    [|by intros [= _ <-]].
  cbv zeta. intros [= _ <-]. cbn [set_rows comments].
  intros c pid Hin Hpar. apply in_app_or in Hin as [Hold | [<- | []]].
  - destruct (Hinv c pid Hold Hpar) as (p & Hp & Hid & Hroot).
    exists p. split; [apply in_or_app; by left|done].
  - rewrite lookup_insert_ne, lookup_insert_ne, lookup_insert_ne,
      lookup_insert_eq in Hpar by done.
    destruct parent_id as [pid'|]; [|discriminate].
    injection Hpar as ->.
    unfold comment_accepted in Hacc.
    apply andb_true_iff in Hacc as [Hacc _].
    apply andb_true_iff in Hacc as [_ Hparent].
    cbn [opt_str_falsy opt_str_to_py] in Hparent.
    assert (Hpid : pid ≠ "") by congruence.
    apply String.eqb_neq in Hpid. rewrite Hpid in Hparent. cbn [orb] in Hparent.
    destruct (List.filter _ (comments s)) as [|p [|p' lp]] eqn:Hrows;
      try discriminate.
    assert (Hp : In p (List.filter
                         (matches [("id", PyStr pid); ("is_active", PyBool true)])
                         (comments s))) by (rewrite Hrows; by left).
    apply filter_In in Hp as [Hp Hm].
    cbn [matches forallb fst snd] in Hm.
    apply andb_true_iff in Hm as [Hid _]. apply bool_decide_eq_true in Hid.
    apply andb_true_iff in Hparent as [_ Hroot].
    exists p. split; [apply in_or_app; by left|]. split; [done|].
    by destruct (is_not_none _).
Qed.

(** What [delete_comment] does, in one equation. *)
Lemma delete_comment_run comment_id user now s :
  ∃ code detail,
    delete_comment comment_id user now s =
    if online s && may_delete (comments s) comment_id user
    then (Returned true,
          set_rows Comments (after_soft_delete comment_id now (comments s)) s)
    else (Raised (HTTPException code detail), s).
Proof.
  unfold delete_comment, may_delete, try_except, mbind, M_bind, select_single.
  cbn [rows]. destruct (online s) eqn:Hon; [|refused]. cbn [andb].
  destruct (List.filter _ (comments s)) as [|c [|c' lc]]; [refused| |refused].
  cbn [project]. destruct (dict_truthy c); [|refused]. cbn [negb andb].
  cbv [mret M_ret]. unfold subscript.
  destruct (c !! "user_id") as [owner|]; [|refused].
  destruct (user !! "id") as [uid|]; [|refused].
  cbv [mret M_ret]. rewrite <- negb_orb.
  destruct (py_eq owner uid || truthy (get user "is_admin" (PyBool false)));
    [|refused].
  cbn [negb]. unfold update. rewrite Hon. by exists 0%Z, EmptyString.
Qed.

Lemma after_soft_delete_rows id now (l : list dict) :
  Forall2 (soft_deleted id) l (after_soft_delete id now l).
Proof.
  unfold after_soft_delete. induction l as [|r l IH]; [constructor|].
  rewrite fmap_cons. constructor; [|exact IH].
  cbn [matches forallb fst snd]. rewrite andb_true_r.
  destruct (bool_decide (r !! "id" = Some (PyStr id))) eqn:Hid.
  - apply bool_decide_eq_true in Hid. split; [done|]. intros _. split.
    + apply lookup_union_Some_l. apply lookup_insert_eq.
    + intros k Hk1 Hk2. apply lookup_union_r.
      by rewrite !lookup_insert_ne, lookup_empty.
  - apply bool_decide_eq_false in Hid. split; [done|]. done.
Qed.

Lemma after_soft_delete_inactive id now (l : list dict) :
  List.filter (matches [("id", PyStr id); ("is_active", PyBool true)])
    (after_soft_delete id now l) = [].
Proof.
  unfold after_soft_delete. induction l as [|r l IH]; [reflexivity|].
  rewrite fmap_cons. cbn [List.filter].
  cbn [matches forallb fst snd]. rewrite !andb_true_r.
  destruct (bool_decide (r !! "id" = Some (PyStr id))) eqn:Hid.
  - rewrite (bool_decide_eq_false_2
               ((_ ∪ r) !! "is_active" = Some (PyBool true))).
    + rewrite andb_false_r. exact IH.
    + rewrite (lookup_union_Some_l _ _ _ (PyBool false)); [discriminate|].
      apply lookup_insert_eq.
  - rewrite Hid. exact IH.
Qed.

(** X18: only the author or an admin deletes a comment: if [delete_comment]
    returns, it returns [True], the store answered, exactly one active
    comment had the id, and the caller's [id] equals its [user_id] or the
    caller's [is_admin] is truthy. *)
Theorem delete_comment_authorised comment_id user now s b s' :
  delete_comment comment_id user now s = (Returned b, s') →
  b = true ∧ online s = true ∧
  ∃ c owner uid,
    List.filter is_active (rows_with_id comment_id (comments s)) = [c] ∧
    c !! "user_id" = Some owner ∧ user !! "id" = Some uid ∧
    (py_eq owner uid = true ∨
     truthy (get user "is_admin" (PyBool false)) = true).
Proof.
  destruct (delete_comment_run comment_id user now s) as (code & detail & ->).
  destruct (online s) eqn:Hon; [|discriminate]. cbn [andb].
  destruct (may_delete (comments s) comment_id user) eqn:Hmay; [|discriminate].
  intros [= <- _]. split; [done|]. split; [done|].
  unfold may_delete in Hmay. rewrite filter_id_active in Hmay.
  destruct (List.filter is_active _) as [|c [|c' lc]] eqn:Hrows;
    try discriminate.
  apply andb_true_iff in Hmay as [_ Hmay].
  destruct (c !! "user_id") as [owner|] eqn:Howner; [|discriminate].
  destruct (user !! "id") as [uid|] eqn:Huid; [|discriminate].
  exists c, owner, uid. repeat split; try done.
  by apply orb_true_iff.
Qed.

(** X19: [delete_comment] is a soft delete and all or nothing.  If it
    raises, what it raises is an [HTTPException] and the store is as before.
    If it returns, the comments are the same rows in the same order, where
    each row with another id is unchanged and each row with the id has
    [is_active] false and differs at most in [is_active] and [updated_at];
    users and posts are untouched. *)
Theorem delete_comment_effect comment_id user now s r s' :
  delete_comment comment_id user now s = (r, s') →
  (∃ code detail, r = Raised (HTTPException code detail) ∧ s' = s) ∨
  (r = Returned true ∧
   Forall2 (soft_deleted comment_id) (comments s) (comments s') ∧
   users s' = users s ∧ posts s' = posts s ∧ online s' = online s).
Proof.
  destruct (delete_comment_run comment_id user now s) as (code & detail & ->).
  destruct (online s && may_delete (comments s) comment_id user).
  - intros [= <- <-]. right. split; [done|].
    cbn [set_rows comments users posts online].
    split; [apply after_soft_delete_rows|done].
  - intros [= <- <-]. left. by eexists _, _.
Qed.

(** X20: a deleted comment is gone for good: after [delete_comment] has
    returned for a non-empty id, deleting that id again raises, and so does
    [create_comment] with that id as [parent_id]; both leave the store as
    the deletion left it. *)
Theorem deleted_comment_unreachable comment_id user now s b s'
    user2 now2 post_id content :
  comment_id ≠ "" →
  delete_comment comment_id user now s = (Returned b, s') →
  (∃ code detail,
     delete_comment comment_id user2 now2 s'
       = (Raised (HTTPException code detail), s')) ∧
  (∃ code detail,
     create_comment bleach_clean_text gen_random_uuid
       post_id user2 content (Some comment_id) now2 s'
       = (Raised (HTTPException code detail), s')).
Proof.
  intros Hid.
  destruct (delete_comment_run comment_id user now s) as (code & detail & ->).
  destruct (online s && may_delete (comments s) comment_id user); [|discriminate].
  intros [= _ Hs'].
  assert (Hgone :
    List.filter (matches [("id", PyStr comment_id); ("is_active", PyBool true)])
      (comments s') = []).
  { rewrite <- Hs'. cbn [set_rows comments]. apply after_soft_delete_inactive. }
  split.
  - destruct (delete_comment_run comment_id user2 now2 s')
      as (code2 & detail2 & ->).
    unfold may_delete. rewrite Hgone, andb_false_r. by eexists _, _.
  - destruct (create_comment_run post_id user2 content (Some comment_id) now2 s')
      as (code2 & detail2 & ->).
    unfold comment_accepted. cbn [opt_str_falsy opt_str_to_py].
    rewrite Hgone.
    apply String.eqb_neq in Hid. rewrite Hid.
    cbn [orb]. rewrite andb_false_r. cbn [andb]. by eexists _, _.
Qed.

Lemma Forall2_In_l {A B} (P : A → B → Prop) l k x :
  Forall2 P l k → In x l → ∃ y, In y k ∧ P x y.
Proof.
  induction 1 as [|a b l k Hab _ IH]; [done|].
  intros [<- | Hin]; [exists b; split; [by left|done]|].
  destruct (IH Hin) as (y & Hy & Hxy). exists y. split; [by right|done].
Qed.

Lemma Forall2_In_r {A B} (P : A → B → Prop) l k y :
  Forall2 P l k → In y k → ∃ x, In x l ∧ P x y.
Proof.
  induction 1 as [|a b l k Hab _ IH]; [done|].
  intros [<- | Hin]; [exists a; split; [by left|done]|].
  destruct (IH Hin) as (x & Hx & Hxy). exists x. split; [by right|done].
Qed.

(** X21: [delete_comment] keeps replies one level deep. *)
Theorem delete_comment_keeps_two_levels comment_id user now s r s' :
  two_levels (comments s) →
  delete_comment comment_id user now s = (r, s') →
  two_levels (comments s').
Proof.
  intros Hinv.
  destruct (delete_comment_run comment_id user now s) as (code & detail & ->).
  destruct (online s && may_delete (comments s) comment_id user);
    [|by intros [= _ <-]].
  intros [= _ <-]. cbn [set_rows comments].
  pose proof (after_soft_delete_rows comment_id now (comments s)) as Hrows.
  assert (Hkeep : ∀ r0 r1, soft_deleted comment_id r0 r1 →
            r1 !! "id" = r0 !! "id" ∧ r1 !! "parent_id" = r0 !! "parent_id").
  { intros r0 r1 [Hother Hsame].
    destruct (decide (r0 !! "id" = Some (PyStr comment_id))) as [Heq|Hneq].
    - destruct (Hsame Heq) as [_ Hk]. split; by apply Hk.
    - by rewrite (Hother Hneq). }
  intros c pid Hin Hpar.
  destruct (Forall2_In_r _ _ _ _ Hrows Hin) as (c0 & Hc0 & Hsd).
  destruct (Hkeep c0 c Hsd) as [_ Hpc].
  rewrite Hpc in Hpar.
  destruct (Hinv c0 pid Hc0 Hpar) as (p & Hp & Hpid & Hroot).
  destruct (Forall2_In_l _ _ _ _ Hrows Hp) as (p1 & Hp1 & Hsd1).
  destruct (Hkeep p p1 Hsd1) as [Hid1 Hpar1].
  exists p1. split; [done|]. split; [by rewrite Hid1|].
  unfold get in *. by rewrite Hpar1.
Qed.

(** ** Deleting posts *)

(** What [delete_post] does, in one equation. *)
Lemma delete_post_run post_id user now s :
  ∃ code detail,
    PostService.delete_post post_id user now s =
    if online s && may_delete (posts s) post_id user
    then (Returned true,
          set_rows Posts (after_soft_delete post_id now (posts s)) s)
    else (Raised (HTTPException code detail), s).
Proof.
  unfold PostService.delete_post, may_delete, try_except, mbind, M_bind,
    select_single.
  cbn [rows]. destruct (online s) eqn:Hon; [|refused]. cbn [andb].
  destruct (List.filter _ (posts s)) as [|c [|c' lc]]; [refused| |refused].
  cbn [project]. destruct (dict_truthy c); [|refused]. cbn [negb andb].
  cbv [mret M_ret]. unfold subscript.
  destruct (c !! "user_id") as [owner|]; [|refused].
  destruct (user !! "id") as [uid|]; [|refused].
  cbv [mret M_ret]. rewrite <- negb_orb.
  destruct (py_eq owner uid || truthy (get user "is_admin" (PyBool false)));
    [|refused].
  cbn [negb]. unfold update. rewrite Hon. by exists 0%Z, EmptyString.
Qed.

(** X22: [delete_post] is a soft delete by the author or an admin, and all
    or nothing.  If it raises, it raises an [HTTPException] and the store is
    as before.  If it returns, it returns [True]; exactly one active post had
    the id and the caller's [id] equals its [user_id] or the caller's
    [is_admin] is truthy; the posts are the same rows in the same order,
    the ones with the id inactive and otherwise changed at most in
    [updated_at]; and the comments of the post stay in the store as they
    were. *)
Theorem delete_post_effect post_id user now s r s' :
  PostService.delete_post post_id user now s = (r, s') →
  (∃ code detail, r = Raised (HTTPException code detail) ∧ s' = s) ∨
  (r = Returned true ∧
   (∃ p owner uid,
      List.filter is_active (rows_with_id post_id (posts s)) = [p] ∧
      p !! "user_id" = Some owner ∧ user !! "id" = Some uid ∧
      (py_eq owner uid = true ∨
       truthy (get user "is_admin" (PyBool false)) = true)) ∧
   Forall2 (soft_deleted post_id) (posts s) (posts s') ∧
   comments s' = comments s ∧ users s' = users s ∧ online s' = online s).
Proof.
  destruct (delete_post_run post_id user now s) as (code & detail & ->).
  destruct (online s) eqn:Hon; cbn [andb]; [|intros [= <- <-]; left; by eexists _, _].
  destruct (may_delete (posts s) post_id user) eqn:Hmay;
    [|intros [= <- <-]; left; by eexists _, _].
  intros [= <- <-]. right. split; [done|].
  cbn [set_rows comments users posts online]. split.
  - unfold may_delete in Hmay. rewrite filter_id_active in Hmay.
    destruct (List.filter is_active _) as [|p [|p' lp]] eqn:Hrows;
      try discriminate.
    apply andb_true_iff in Hmay as [_ Hmay].
    destruct (p !! "user_id") as [owner|] eqn:Howner; [|discriminate].
    destruct (user !! "id") as [uid|] eqn:Huid; [|discriminate].
    exists p, owner, uid. repeat split; try done. by apply orb_true_iff.
  - split; [apply after_soft_delete_rows|done].
Qed.

(** X23: a deleted post takes no more comments: after [delete_post] has
    returned, every [create_comment] on that post raises and stores
    nothing, and deleting the post again raises. *)
Theorem deleted_post_closed post_id user now s b s'
    user2 now2 content parent_id :
  PostService.delete_post post_id user now s = (Returned b, s') →
  (∃ code detail,
     create_comment bleach_clean_text gen_random_uuid
       post_id user2 content parent_id now2 s'
       = (Raised (HTTPException code detail), s')) ∧
  (∃ code detail,
     PostService.delete_post post_id user2 now2 s'
       = (Raised (HTTPException code detail), s')).
Proof.
  destruct (delete_post_run post_id user now s) as (code & detail & ->).
  destruct (online s && may_delete (posts s) post_id user); [|discriminate].
  intros [= _ Hs'].
  assert (Hgone :
    List.filter (matches [("id", PyStr post_id); ("is_active", PyBool true)])
      (posts s') = []).
  { rewrite <- Hs'. cbn [set_rows posts]. apply after_soft_delete_inactive. }
  split.
  - destruct (create_comment_run post_id user2 content parent_id now2 s')
      as (code2 & detail2 & ->).
    unfold comment_accepted. rewrite Hgone, andb_false_r. by eexists _, _.
  - destruct (delete_post_run post_id user2 now2 s') as (code2 & detail2 & ->).
    unfold may_delete. rewrite Hgone, andb_false_r. by eexists _, _.
Qed.

End CommentMore.

(** ** The comment tree *)

Section TreeFacts.
Import CommentService.

Variable order_by : string → list dict → list dict.

Lemma lookup_shift {A} (c : A) rest i k (P : A → Prop) :
  (∃ c', i ≤ k ∧ (c :: rest) !! (k - i) = Some c' ∧ P c') ↔
  (k = i ∧ P c) ∨ (∃ c', S i ≤ k ∧ rest !! (k - S i) = Some c' ∧ P c').
Proof.
  split.
  - intros (c' & Hle & Hlk & HP).
    destruct (decide (k = i)) as [->|Hne].
    + left. rewrite Nat.sub_diag in Hlk. simpl in Hlk. by injection Hlk as ->.
    + right. exists c'. split; [lia|]. split; [|done].
      replace (k - i) with (S (k - S i)) in Hlk by lia. done.
  - intros [[-> HP] | (c' & Hle & Hlk & HP)].
    + exists c. rewrite Nat.sub_diag. done.
    + exists c'. split; [lia|]. split; [|done].
      replace (k - i) with (S (k - S i)) by lia. done.
Qed.

Lemma sorted_snoc (l : list nat) i :
  Forall (λ k, k < i) l → StronglySorted lt l → StronglySorted lt (l ++ [i]).
Proof.
  intros Hlt Hs. induction Hs as [|a l Hs IH Ha]; simpl.
  - repeat constructor.
  - apply Forall_cons in Hlt as [Hai Hlt]. constructor; [by apply IH|].
    apply Forall_app. split; [done|]. by constructor.
Qed.

Lemma names_parent_root fetched c :
  is_root c = true → names_parent fetched c = None.
Proof.
  unfold is_root, names_parent. intros H. apply bool_decide_eq_true in H.
  by rewrite H.
Qed.

Lemma replies_weaken (rs : list (list nat)) i :
  Forall (λ l, Forall (λ k, k < i) l ∧ StronglySorted lt l) rs →
  Forall (λ l, Forall (λ k, k < S i) l ∧ StronglySorted lt l) rs.
Proof.
  intros H. eapply Forall_impl; [exact H|]. intros l [Hb Hs]. split; [|done].
  eapply Forall_impl; [exact Hb|]. intros; simpl in *; lia.
Qed.

Lemma replies_step (rs : list (list nat)) i j0 :
  Forall (λ l, Forall (λ k, k < i) l ∧ StronglySorted lt l) rs →
  Forall (λ l, Forall (λ k, k < S i) l ∧ StronglySorted lt l)
    (alter (λ l, l ++ [i]) j0 rs).
Proof.
  intros H. revert j0. induction H as [|l rs [Hb Hs] Hrs IH]; intros j0.
  - constructor.
  - destruct j0 as [|j0]; simpl.
    + constructor; [|by apply replies_weaken].
      split; [|by apply sorted_snoc].
      apply Forall_app. split; [|constructor; [lia|constructor]].
      eapply Forall_impl; [exact Hb|]. intros; simpl in *; lia.
    + constructor; [|apply IH].
      split; [|done]. eapply Forall_impl; [exact Hb|]. intros; simpl in *; lia.
Qed.

Ltac split_cases :=
  split; intros ?;
  repeat match goal with
         | H : _ ∨ _ |- _ => destruct H
         | H : ∃ _, _ |- _ => destruct H
         | H : _ ∧ _ |- _ => destruct H
         end;
  subst; try discriminate; try congruence; eauto 10.

(** The loop adds each comment to at most one list, at its end. *)
Lemma nest_spec fetched cs : ∀ i acc acc',
  nest fetched cs i acc = Returned acc' →
  Forall (λ k, k < i) (placed_roots acc) →
  StronglySorted lt (placed_roots acc) →
  Forall (λ l, Forall (λ k, k < i) l ∧ StronglySorted lt l) (placed_replies acc) →
  length (placed_replies acc') = length (placed_replies acc) ∧
  StronglySorted lt (placed_roots acc') ∧
  Forall (StronglySorted lt) (placed_replies acc') ∧
  (∀ k, k ∈ placed_roots acc' ↔
        k ∈ placed_roots acc ∨
        ∃ c, i ≤ k ∧ cs !! (k - i) = Some c ∧ is_root c = true) ∧
  (∀ j l', placed_replies acc' !! j = Some l' →
     ∃ l, placed_replies acc !! j = Some l ∧
          ∀ k, k ∈ l' ↔
               k ∈ l ∨
               ∃ c, i ≤ k ∧ cs !! (k - i) = Some c ∧
                    names_parent fetched c = Some j).
Proof.
  induction cs as [|c rest IH]; intros i acc acc' Hrun Hrb Hrs Hpb.
  - injection Hrun as <-. split; [done|]. split; [done|].
    split; [eapply Forall_impl; [exact Hpb|]; by intros l [_ ?]|].
    split.
    + intros k. split; [by left|]. intros [?|(c & _ & Hlk & _)]; [done|].
      by rewrite lookup_nil in Hlk.
    + intros j l' Hl'. exists l'. split; [done|]. intros k.
      split; [by left|]. intros [?|(c & _ & Hlk & _)]; [done|].
      by rewrite lookup_nil in Hlk.
  - cbn [nest] in Hrun.
    destruct (c !! "parent_id") as [pid|] eqn:Hpid; [|discriminate].
    assert (Hrb' : Forall (λ k, k < S i) (placed_roots acc)).
    { eapply Forall_impl; [exact Hrb|]. intros; simpl in *; lia. }
    destruct (is_not_none pid) eqn:Hnn; cbn [negb] in Hrun.
    + assert (Hroot : is_root c = false).
      { unfold is_root. apply bool_decide_eq_false. intros Heq.
        rewrite Hpid in Heq. injection Heq as ->. discriminate. }
      assert (Hnp : names_parent fetched c = last_index_from "id" pid fetched 0).
      { unfold names_parent. by rewrite Hpid, Hnn. }
      destruct (last_index_from "id" pid fetched 0) as [j0|] eqn:Hj0.
      * apply IH in Hrun as (Hlen & Hsr & Hsp & Hmr & Hmp);
          cbn [placed_roots placed_replies] in *;
          [|done|done|by apply replies_step].
        rewrite length_alter in Hlen. split; [done|]. split; [done|].
        split; [done|]. split.
        -- intros k.
           rewrite Hmr, (lookup_shift c rest i k (λ c, is_root c = true)).
           rewrite Hroot. split_cases.
        -- intros j l' Hl'. destruct (Hmp j l' Hl') as (l1 & Hl1 & Hk).
           destruct (decide (j = j0)) as [->|Hne].
           ++ rewrite list_lookup_alter_eq in Hl1.
              destruct (placed_replies acc !! j0) as [l|] eqn:Hl; [|discriminate].
              exists l. split; [done|]. injection Hl1 as <-.
              intros k. rewrite Hk,
                (lookup_shift c rest i k (λ c, names_parent fetched c = Some j0)).
              rewrite Hnp, elem_of_app, list_elem_of_singleton. split_cases.
           ++ rewrite list_lookup_alter_ne in Hl1 by done.
              exists l1. split; [done|]. intros k. rewrite Hk,
                (lookup_shift c rest i k (λ c, names_parent fetched c = Some j)).
              rewrite Hnp. split_cases.
      * apply IH in Hrun as (Hlen & Hsr & Hsp & Hmr & Hmp);
          [|done|done|by apply replies_weaken].
        split; [done|]. split; [done|]. split; [done|]. split.
        -- intros k.
           rewrite Hmr, (lookup_shift c rest i k (λ c, is_root c = true)).
           rewrite Hroot. split_cases.
        -- intros j l' Hl'. destruct (Hmp j l' Hl') as (l1 & Hl1 & Hk).
           exists l1. split; [done|]. intros k. rewrite Hk,
             (lookup_shift c rest i k (λ c, names_parent fetched c = Some j)).
           rewrite Hnp. split_cases.
    + assert (Hroot : is_root c = true).
      { unfold is_root. apply bool_decide_eq_true. rewrite Hpid.
        f_equal. by destruct pid. }
      pose proof (names_parent_root fetched c Hroot) as Hnp.
      apply IH in Hrun as (Hlen & Hsr & Hsp & Hmr & Hmp);
        cbn [placed_roots placed_replies] in *;
        [|apply Forall_app; split; [done|constructor; [lia|constructor]]
         |by apply sorted_snoc|by apply replies_weaken].
      split; [done|]. split; [done|]. split; [done|]. split.
      * intros k.
        rewrite Hmr, (lookup_shift c rest i k (λ c, is_root c = true)).
        rewrite elem_of_app, list_elem_of_singleton. split_cases.
      * intros j l' Hl'. destruct (Hmp j l' Hl') as (l1 & Hl1 & Hk).
        exists l1. split; [done|]. intros k. rewrite Hk,
          (lookup_shift c rest i k (λ c, names_parent fetched c = Some j)).
        rewrite Hnp. split_cases.
Qed.

Lemma bind_run {A B} (m : M A) (f : A → M B) (s : db) :
  (m ≫= f) s =
    match m s with
    | (Returned a, s1) => f a s1
    | (Raised e, s1) => (Raised e, s1)
    end.
Proof. reflexivity. Qed.

Lemma ret_run {A} (a : A) (s : db) : (mret a : M A) s = (Returned a, s).
Proof. reflexivity. Qed.

Lemma mapM_subscript key (l : list dict) (s : db) :
  (∃ vs, mapM (λ c, subscript c key) l s = (Returned vs, s)) ∨
  mapM (λ c, subscript c key) l s = (Raised KeyError, s).
Proof.
  induction l as [|c l IH]; [left; by eexists|].
  assert (Hsub : subscript c key s =
            match c !! key with
            | Some v => (Returned v, s)
            | None => (Raised KeyError, s)
            end) by (unfold subscript; by destruct (c !! key)).
  cbn [mapM]. rewrite bind_run, Hsub.
  destruct (c !! key) as [v|]; [|right; reflexivity].
  rewrite bind_run.
  destruct IH as [[vs ->] | ->]; [left; by eexists|right; reflexivity].
Qed.

Lemma imap_rows (authors : list dict) (placed : list (list nat)) (l : list dict) :
  node_row <$>
    imap (λ i c, {| node_row := c;
                    node_author := default ∅ (authors !! i);
                    node_replies := default [] (placed !! i) |}) l = l.
Proof.
  apply list_eq. intros i. rewrite list_lookup_fmap, list_lookup_imap.
  by destruct (l !! i).
Qed.

Ltac refused_tree :=
  eexists; split; [reflexivity | left; eexists _, _; reflexivity].

(** What [get_post_comments] does: it never changes the store; it either
    raises an [HTTPException], or returns the active comments of the post
    in the store's order, each one listed at top level or under one fetched
    comment or nowhere. *)
Lemma get_post_comments_run post_id s :
  ∃ r, get_post_comments order_by post_id s = (r, s) ∧
  ((∃ code detail, r = Raised (HTTPException code detail)) ∨
   (∃ t, r = Returned t ∧
     let fetched :=
       order_by "created_at"
         (List.filter (matches [("post_id", PyStr post_id);
                                ("is_active", PyBool true)]) (comments s)) in
     online s = true ∧
     (∃ p, List.filter is_active (rows_with_id post_id (posts s)) = [p]) ∧
     node_row <$> nodes t = fetched ∧
     StronglySorted lt (roots t) ∧
     (∀ k, k ∈ roots t ↔ ∃ c, fetched !! k = Some c ∧ is_root c = true) ∧
     (∀ j nd, nodes t !! j = Some nd →
        StronglySorted lt (node_replies nd) ∧
        ∀ k, k ∈ node_replies nd ↔
             ∃ c, fetched !! k = Some c ∧ names_parent fetched c = Some j))).
Proof.
  unfold get_post_comments, try_except.
  rewrite bind_run. unfold select_single at 1. cbn [rows].
  destruct (online s) eqn:Hon; [|refused_tree].
  rewrite filter_id_active.
  destruct (List.filter is_active _) as [|p [|p' lp]] eqn:Hpost;
    [refused_tree| |refused_tree].
  rewrite bind_run.
  destruct (dict_truthy (project (Some ["id"]) p)); [|refused_tree].
  cbn [negb]. rewrite (ret_run () s).
  rewrite bind_run. unfold select_ordered at 1. rewrite Hon. cbn [rows].
  set (fetched := order_by "created_at" _).
  rewrite bind_run.
  assert (Hauthors :
    (∃ authors : list dict,
       (if bool_decide (fetched ≠ [])
        then user_ids ← mapM (λ c, subscript c "user_id") fetched;
             users_response_data ← select_in Users "id" user_ids;
             mret (author_of users_response_data <$> user_ids)
        else mret []) s = (Returned authors, s)) ∨
    (if bool_decide (fetched ≠ [])
     then user_ids ← mapM (λ c, subscript c "user_id") fetched;
          users_response_data ← select_in Users "id" user_ids;
          mret (author_of users_response_data <$> user_ids)
     else mret []) s = (Raised KeyError, s)).
  { destruct (bool_decide (fetched ≠ [])); [|left; by eexists].
    rewrite bind_run.
    destruct (mapM_subscript "user_id" fetched s) as [[vs ->] | ->];
      [|by right].
    rewrite bind_run. unfold select_in. rewrite Hon. left. by eexists. }
  destruct Hauthors as [[authors ->] | ->]; [|refused_tree].
  rewrite bind_run.
  destruct (mapM_subscript "id" fetched s) as [[ids ->] | ->];
    [|refused_tree].
  rewrite bind_run. unfold lift.
  destruct (nest fetched fetched 0 _) as [placed|e] eqn:Hnest.
  2:{ assert (e = KeyError) as ->; [|refused_tree].
      clear -Hnest. revert Hnest.
      generalize 0 at 1. generalize fetched at 2.
      generalize ({| placed_roots := []; placed_replies := replicate (length fetched) [] |}).
      intros acc cs. revert acc. induction cs as [|c cs IH]; intros acc i H; [done|].
      cbn [nest] in H. repeat case_match; try congruence; by eapply IH. }
  eexists. split; [reflexivity|]. right.
  eexists. split; [reflexivity|]. cbv zeta. cbn [nodes roots].
  apply nest_spec in Hnest as (Hlen & Hsr & Hsp & Hmr & Hmp);
    cbn [placed_roots placed_replies]; [|constructor|constructor|].
  2:{ apply Forall_replicate. split; constructor. }
  cbn [placed_roots placed_replies] in *.
  split; [done|]. split; [by exists p|]. split; [apply imap_rows|].
  split; [done|]. split.
  - intros k. rewrite Hmr, Nat.sub_0_r. split.
    + intros [Hin|(c & _ & Hc & Hr)]; [by apply elem_of_nil in Hin|by exists c].
    + intros (c & Hc & Hr). right. exists c. split; [lia|done].
  - intros j nd Hnd. rewrite list_lookup_imap in Hnd.
    destruct (fetched !! j) as [c|] eqn:Hc; [|discriminate].
    injection Hnd as <-. cbn [node_replies].
    rewrite length_replicate in Hlen.
    destruct (lookup_lt_is_Some_2 (placed_replies placed) j) as [l' Hl'].
    { rewrite Hlen. by eapply lookup_lt_Some. }
    rewrite Hl'. cbn [default].
    destruct (Hmp j l' Hl') as (l0 & Hl0 & Hk).
    apply lookup_replicate in Hl0 as [-> _]. split.
    + eapply Forall_lookup_1 in Hsp; [exact Hsp|exact Hl'].
    + intros k. rewrite Hk, Nat.sub_0_r. split.
      * intros [Hin|(c' & _ & Hc' & Hr)];
          [by apply elem_of_nil in Hin|by exists c'].
      * intros (c' & Hc' & Hr). right. exists c'. split; [lia|done].
Qed.

Lemma run_unique post_id s r s' r0 :
  get_post_comments order_by post_id s = (r, s') →
  get_post_comments order_by post_id s = (r0, s) →
  r = r0 ∧ s' = s.
Proof. intros -> [= -> ->]. done. Qed.


(** X25: the top level of the returned tree holds exactly the fetched
    comments whose [parent_id] is [None], each once, in the fetched
    order. *)
Theorem get_post_comments_roots post_id s t s' :
  get_post_comments order_by post_id s = (Returned t, s') →
  StronglySorted lt (roots t) ∧
  ∀ k, k ∈ roots t ↔
       ∃ nd, nodes t !! k = Some nd ∧
             node_row nd !! "parent_id" = Some PyNone.
Proof.
  intros Hrun.
  destruct (get_post_comments_run post_id s) as (r0 & Hr0 & Hcases).
  destruct (run_unique _ _ _ _ _ Hrun Hr0) as [<- ->].
  destruct Hcases as [(? & ? & [=]) | (t0 & [= <-] & _ & _ & Hrows & Hs & Hm & _)].
  split; [done|]. intros k. rewrite Hm, <- Hrows, list_lookup_fmap. split.
  - intros (c & Hc & Hroot). destruct (nodes t !! k) as [nd|]; [|discriminate].
    injection Hc as <-. exists nd. split; [done|].
    by apply bool_decide_eq_true in Hroot.
  - intros (nd & -> & Hroot). exists (node_row nd). split; [done|].
    by apply bool_decide_eq_true.
Qed.

(** X26: under each returned comment stand exactly the fetched comments
    whose [parent_id] is not [None] and is the id under which
    [comments_dict] holds that comment, each once, in the fetched order. *)
Theorem get_post_comments_replies post_id s t s' j nd :
  get_post_comments order_by post_id s = (Returned t, s') →
  nodes t !! j = Some nd →
  StronglySorted lt (node_replies nd) ∧
  ∀ k, k ∈ node_replies nd ↔
       ∃ c, nodes t !! k = Some c ∧
            names_parent (node_row <$> nodes t) (node_row c) = Some j.
Proof.
  intros Hrun Hnd.
  destruct (get_post_comments_run post_id s) as (r0 & Hr0 & Hcases).
  destruct (run_unique _ _ _ _ _ Hrun Hr0) as [<- ->].
  destruct Hcases as [(? & ? & [=]) | (t0 & [= <-] & _ & _ & Hrows & _ & _ & Hrep)].
  destruct (Hrep j nd Hnd) as [Hs Hm]. split; [done|].
  intros k. rewrite Hm, <- Hrows, list_lookup_fmap. split.
  - intros (c & Hc & Hp). destruct (nodes t !! k) as [c0|]; [|discriminate].
    injection Hc as <-. by exists c0.
  - intros (c & -> & Hp). by exists (node_row c).
Qed.

(** X27: no comment is shown twice and a reply whose parent was not fetched
    is not shown at all: a comment at top level stands under no comment, a
    comment stands under at most one comment, and a comment that is neither
    top-level nor names a fetched parent stands nowhere. *)
Theorem get_post_comments_placement post_id s t s' k c :
  get_post_comments order_by post_id s = (Returned t, s') →
  nodes t !! k = Some c →
  (k ∈ roots t →
     ∀ j nd, nodes t !! j = Some nd → k ∉ node_replies nd) ∧
  (∀ j1 nd1 j2 nd2,
     nodes t !! j1 = Some nd1 → nodes t !! j2 = Some nd2 →
     k ∈ node_replies nd1 → k ∈ node_replies nd2 → j1 = j2) ∧
  (node_row c !! "parent_id" ≠ Some PyNone →
   names_parent (node_row <$> nodes t) (node_row c) = None →
   (k ∉ roots t) ∧ ∀ j nd, nodes t !! j = Some nd → k ∉ node_replies nd).
Proof.
  intros Hrun Hc.
  destruct (get_post_comments_run post_id s) as (r0 & Hr0 & Hcases).
  destruct (run_unique _ _ _ _ _ Hrun Hr0) as [<- ->].
  destruct Hcases as [(? & ? & [=]) | (t0 & [= <-] & _ & _ & Hrows & _ & Hm & Hrep)].
  cbv zeta in *. rewrite <- Hrows in Hm, Hrep.
  assert (Hck : (node_row <$> nodes t) !! k = Some (node_row c))
    by (by rewrite list_lookup_fmap, Hc).
  split; [|split].
  - intros Hroot j nd Hnd Hin.
    apply Hm in Hroot as (c1 & Hc1 & Hr1).
    apply (Hrep j nd Hnd) in Hin as (c2 & Hc2 & Hp2).
    rewrite Hck in Hc1, Hc2. injection Hc1 as <-. injection Hc2 as <-.
    by rewrite (names_parent_root _ _ Hr1) in Hp2.
  - intros j1 nd1 j2 nd2 Hn1 Hn2 Hin1 Hin2.
    apply (Hrep j1 nd1 Hn1) in Hin1 as (c1 & Hc1 & Hp1).
    apply (Hrep j2 nd2 Hn2) in Hin2 as (c2 & Hc2 & Hp2).
    rewrite Hck in Hc1, Hc2. injection Hc1 as <-. injection Hc2 as <-.
    congruence.
  - intros Hnr Hnp. split.
    + intros Hroot. apply Hm in Hroot as (c1 & Hc1 & Hr1).
      rewrite Hck in Hc1. injection Hc1 as <-.
      by apply bool_decide_eq_true in Hr1.
    + intros j nd Hnd Hin.
      apply (Hrep j nd Hnd) in Hin as (c2 & Hc2 & Hp2).
      rewrite Hck in Hc2. injection Hc2 as <-. congruence.
Qed.

End TreeFacts.

(** ** The further properties on the sample store *)

Section MoreExamples.
Import AuthService CommentService.

Lemma require_auth_spec_witness :
  online (sample_store false) = false ∧
  require_auth jwt_sample (request_with "valid") (sample_store false)
    = (Raised (HTTPException 401 "Not authenticated"), sample_store false).
Proof.
  split; [reflexivity|].
  destruct (require_auth_spec jwt_sample (request_with "valid")
              (sample_store false)) as [_ Hdown].
  apply Hdown. reflexivity.
Defined.

Lemma require_admin_spec_witness :
  require_admin jwt_sample (request_with "valid") (sample_store true)
    = (Returned sample_admin, sample_store true) ∧
  truthy (get sample_admin "is_admin" PyNone) = true.
Proof.
  assert (H : require_admin jwt_sample (request_with "valid") (sample_store true)
              = (Returned sample_admin, sample_store true)).
  { rewrite require_admin_returns. reflexivity. }
  split; [exact H|].
  destruct (require_admin_spec jwt_sample (request_with "valid")
              (sample_store true)) as [Hok _].
  destruct (Hok _ _ H) as (_ & _ & Hadm & _). exact Hadm.
Defined.

Lemma require_admin_then_permitted_witness :
  require_admin jwt_sample (request_with "valid") (sample_store true)
    = (Returned sample_admin, sample_store true) ∧
  truthy (BoardService.check_read_permission board_admin_only (Some sample_admin))
    = true ∧
  truthy (BoardService.check_write_permission board_admin_only (Some sample_admin))
    = true.
Proof.
  assert (H : require_admin jwt_sample (request_with "valid") (sample_store true)
              = (Returned sample_admin, sample_store true)).
  { rewrite require_admin_returns. reflexivity. }
  split; [exact H|].
  apply (require_admin_then_permitted jwt_sample _ _ _ _ board_admin_only
           (PyStr "admin") (PyStr "admin") H); try reflexivity; auto.
Defined.

Lemma get_current_user_is_get_user_by_id_witness :
  get_current_user jwt_sample (request_with "valid") (sample_store true)
    = get_user_by_id "u-1" (sample_store true).
Proof.
  apply (get_current_user_is_get_user_by_id jwt_sample (request_with "valid")
           (sample_store true) "valid" (<["sub" := PyStr "u-1"]> ∅) "u-1");
    try reflexivity; discriminate.
Defined.

Lemma create_comment_outcome_witness :
  ∃ r s',
    create_comment clean_sample uuid_sample "p-1" sample_user "hello"
      (Some "c-1") "2024-01-02T00:00:00+00:00" (sample_store true) = (r, s') ∧
    ∃ view, r = Returned view ∧
            comments s' = comments (sample_store true) ++ [comment view].
Proof.
  eexists _, _. split; [reflexivity|].
  destruct (create_comment_outcome clean_sample uuid_sample "p-1" sample_user
              "hello" (Some "c-1") "2024-01-02T00:00:00+00:00"
              (sample_store true) _ _ eq_refl)
    as [(code & detail & Hr & _) | (view & Hr & Hrows & _)].
  - discriminate Hr.
  - exists view. split; [exact Hr|exact Hrows].
Defined.

Lemma create_comment_success_requires_witness :
  ∃ view s',
    create_comment clean_sample uuid_sample "p-1" sample_user "hello"
      (Some "c-1") "2024-01-02T00:00:00+00:00" (sample_store true)
      = (Returned view, s') ∧
    ∃ c, List.filter is_active (rows_with_id "c-1" (comments (sample_store true)))
           = [c] ∧ get c "parent_id" PyNone = PyNone.
Proof.
  eexists _, _. split; [reflexivity|].
  destruct (create_comment_success_requires clean_sample uuid_sample "p-1"
              sample_user "hello" (Some "c-1") "2024-01-02T00:00:00+00:00"
              (sample_store true) _ _ eq_refl) as (_ & _ & Hparent).
  apply (Hparent "c-1"); [reflexivity|discriminate].
Defined.

Lemma sample_two_levels : two_levels (comments (sample_store true)).
Proof.
  intros c pid [<- | [<- | []]] Hpar; [discriminate|].
  injection Hpar as <-. exists root_comment. split; [by left|]. by split.
Qed.

Lemma create_comment_keeps_two_levels_witness :
  Some "c-1" ≠ Some "" ∧
  two_levels (comments (sample_store true)) ∧
  ∃ r s',
    create_comment clean_sample uuid_sample "p-1" sample_user "hello"
      (Some "c-1") "2024-01-02T00:00:00+00:00" (sample_store true) = (r, s') ∧
    two_levels (comments s').
Proof.
  assert (H1 : Some "c-1" ≠ Some "") by discriminate.
  split; [exact H1|]. split; [exact sample_two_levels|].
  eexists _, _. split; [reflexivity|].
  exact (create_comment_keeps_two_levels clean_sample uuid_sample "p-1"
           sample_user "hello" (Some "c-1") "2024-01-02T00:00:00+00:00"
           (sample_store true) _ _ H1 sample_two_levels eq_refl).
Defined.

Lemma delete_comment_authorised_witness :
  ∃ s',
    delete_comment "c-9" sample_author "2024-01-03T00:00:00+00:00" owned_store
      = (Returned true, s') ∧
    ∃ c owner uid,
      List.filter is_active (rows_with_id "c-9" (comments owned_store)) = [c] ∧
      c !! "user_id" = Some owner ∧ sample_author !! "id" = Some uid.
Proof.
  eexists. split; [reflexivity|].
  destruct (delete_comment_authorised "c-9" sample_author
              "2024-01-03T00:00:00+00:00" owned_store _ _ eq_refl)
    as (_ & _ & c & owner & uid & Hc & Ho & Hu & _).
  by exists c, owner, uid.
Defined.

Lemma delete_comment_effect_witness :
  ∃ r s',
    delete_comment "c-9" sample_author "2024-01-03T00:00:00+00:00" owned_store
      = (r, s') ∧
    r = Returned true ∧
    Forall2 (soft_deleted "c-9") (comments owned_store) (comments s').
Proof.
  eexists _, _. split; [reflexivity|].
  destruct (delete_comment_effect "c-9" sample_author
              "2024-01-03T00:00:00+00:00" owned_store _ _ eq_refl)
    as [(code & detail & Hr & _) | (Hr & Hrows & _)].
  - discriminate Hr.
  - by split.
Defined.

Lemma deleted_comment_unreachable_witness :
  "c-9" ≠ "" ∧
  ∃ s',
    delete_comment "c-9" sample_author "2024-01-03T00:00:00+00:00" owned_store
      = (Returned true, s') ∧
    ∃ code detail,
      create_comment clean_sample uuid_sample "p-1" sample_user "late"
        (Some "c-9") "2024-01-04T00:00:00+00:00" s'
      = (Raised (HTTPException code detail), s').
Proof.
  assert (H1 : "c-9" ≠ "") by discriminate.
  split; [exact H1|].
  eexists. split; [reflexivity|].
  destruct (deleted_comment_unreachable clean_sample uuid_sample "c-9"
              sample_author "2024-01-03T00:00:00+00:00" owned_store _ _
              sample_user "2024-01-04T00:00:00+00:00" "p-1" "late" H1 eq_refl)
    as [_ Hreply].
  exact Hreply.
Defined.

Lemma owned_two_levels : two_levels (comments owned_store).
Proof.
  intros c pid [<- | [<- | [<- | []]]] Hpar; try discriminate.
  injection Hpar as <-. exists root_comment. split; [by left|]. by split.
Qed.

Lemma delete_comment_keeps_two_levels_witness :
  two_levels (comments owned_store) ∧
  ∃ r s',
    delete_comment "c-9" sample_author "2024-01-03T00:00:00+00:00" owned_store
      = (r, s') ∧ two_levels (comments s').
Proof.
  split; [exact owned_two_levels|].
  eexists _, _. split; [reflexivity|].
  exact (delete_comment_keeps_two_levels "c-9" sample_author
           "2024-01-03T00:00:00+00:00" owned_store _ _ owned_two_levels eq_refl).
Defined.

Lemma delete_post_effect_witness :
  ∃ r s',
    PostService.delete_post "p-9" sample_author "2024-01-03T00:00:00+00:00"
      owned_store = (r, s') ∧
    r = Returned true ∧ comments s' = comments owned_store.
Proof.
  eexists _, _. split; [reflexivity|].
  destruct (delete_post_effect "p-9" sample_author
              "2024-01-03T00:00:00+00:00" owned_store _ _ eq_refl)
    as [(code & detail & Hr & _) | (Hr & _ & _ & Hc & _)].
  - discriminate Hr.
  - by split.
Defined.

Lemma deleted_post_closed_witness :
  ∃ s',
    PostService.delete_post "p-9" sample_author "2024-01-03T00:00:00+00:00"
      owned_store = (Returned true, s') ∧
    ∃ code detail,
      create_comment clean_sample uuid_sample "p-9" sample_user "late" None
        "2024-01-04T00:00:00+00:00" s'
      = (Raised (HTTPException code detail), s').
Proof.
  eexists. split; [reflexivity|].
  destruct (deleted_post_closed clean_sample uuid_sample "p-9" sample_author
              "2024-01-03T00:00:00+00:00" owned_store _ _
              sample_user "2024-01-04T00:00:00+00:00" "late" None eq_refl)
    as [Hcomment _].
  exact Hcomment.
Defined.


Lemma get_post_comments_roots_witness :
  ∃ t s',
    get_post_comments order_sample "p-1" thread_store = (Returned t, s') ∧
    0 ∈ roots t.
Proof.
  eexists _, _. split; [reflexivity|].
  destruct (get_post_comments_roots order_sample "p-1" thread_store _ _ eq_refl)
    as [_ Hroots].
  apply Hroots. eexists. split; reflexivity.
Defined.

Lemma get_post_comments_replies_witness :
  ∃ t s' nd,
    get_post_comments order_sample "p-1" thread_store = (Returned t, s') ∧
    nodes t !! 0 = Some nd ∧ 1 ∈ node_replies nd.
Proof.
  eexists _, _, _. split; [reflexivity|]. split; [reflexivity|].
  destruct (get_post_comments_replies order_sample "p-1" thread_store _ _ 0 _
              eq_refl eq_refl) as [_ Hreplies].
  apply Hreplies. eexists. split; reflexivity.
Defined.

Lemma get_post_comments_placement_witness :
  ∃ t s' c,
    get_post_comments order_sample "p-1" thread_store = (Returned t, s') ∧
    nodes t !! 2 = Some c ∧ 2 ∉ roots t.
Proof.
  eexists _, _, _. split; [reflexivity|]. split; [reflexivity|].
  destruct (get_post_comments_placement order_sample "p-1" thread_store _ _ 2 _
              eq_refl eq_refl) as (_ & _ & Horphan).
  apply Horphan; [discriminate|reflexivity].
Defined.

(** The tree of the sample thread: one top-level comment with its reply
    under it; the reply to a comment that was not fetched is left out. *)
Example get_post_comments_thread :
  ∃ t,
    get_post_comments order_sample "p-1" thread_store = (Returned t, thread_store) ∧
    roots t = [0] ∧
    node_replies <$> nodes t = [[1]; []; []] ∧
    node_author <$> nodes t = [sample_admin; sample_user; sample_user].
Proof. eexists. split; [reflexivity|]. repeat split. Qed.

End MoreExamples.
